(** * The colour field of scratch-blocks ([core/field_colour.js])

    A shallow embedding of [Blockly.FieldColour]: the field object, the block
    that owns it, the editor panel with its three sliders, the listener
    registry, and the event queue, followed by the properties of the
    field's operations.

    Conventions of the embedding.
    - A JavaScript string is a [string]; a character is a code unit below
      256, so the line terminators U+2028 and U+2029 have no counterpart.
    - A JavaScript number is a rational [Q]: the exact value of the literal
      or of the arithmetic expression.  The properties below that read a
      computed number read the brightness readout, whose computation on
      doubles agrees with the exact one (see C2).
    - A method is a computation in the monad [M]: it reads and updates the
      [World] and either completes normally or throws.  A throw keeps the
      updates made before it, as in JavaScript. *)

From Stdlib Require Import QArith Qround Ascii.
From stdpp Require Import gmap strings pretty.

Local Open Scope string_scope.

(** ** Numbers and colours *)

(** [Math.floor(x).toFixed(0)]: the decimal digits of the integer part. *)
Definition floorToFixed0 (x : Q) : string := pretty (Qfloor x).

(** The array [[h, s, v]] returned by [goog.color.hexToHsv]. *)
Record hsv := Hsv { hsv_0 : Q; hsv_1 : Q; hsv_2 : Q }.

(** What the field uses of the Closure Library's [goog.color].  Both
    functions throw on input they do not accept: [None]. *)
Class goog_color := {
  hexToHsv : string -> option hsv;
  hsvToHex : Q -> Q -> Q -> option string
}.

(** ** Blocks *)

(** Modelled from the spec: [Blockly.Block] is defined outside
    [field_colour.js].  A block has an id, a category, three colour slots
    and a parent block; [setColour] stores its three arguments in the
    three slots and [getColourTertiary] reads the third. *)
#[warnings="-register-all"]
Inductive Block := mkBlock {
  block_id : string;
  block_category_ : option string;
  block_colour_ : string;
  block_colourSecondary_ : string;
  block_colourTertiary_ : string;
  block_parentBlock_ : option Block
}.

Definition getColourTertiary (b : Block) : string := block_colourTertiary_ b.

Definition setColour (c1 c2 c3 : string) (b : Block) : Block :=
  {| block_id := block_id b;
     block_category_ := block_category_ b;
     block_colour_ := c1;
     block_colourSecondary_ := c2;
     block_colourTertiary_ := c3;
     block_parentBlock_ := block_parentBlock_ b |}.

Definition getCategory (b : Block) : option string := block_category_ b.

(** ** Sliders *)

(** A [goog.ui.Slider] as the field configures it.  A parameter that no
    setter has touched is [None]: the widget's own default. *)
Record Slider := mkSlider {
  unitIncrement : option Q;
  step : option Q;
  minimum : option Q;
  maximum : option Q;
  value : option Q;
  rendered : bool;
  background : option string
}.

(** [new goog.ui.Slider()] *)
Definition new_Slider : Slider :=
  {| unitIncrement := None; step := None; minimum := None; maximum := None;
     value := None; rendered := false; background := None |}.

Definition setUnitIncrement (x : Q) (s : Slider) : Slider :=
  {| unitIncrement := Some x; step := step s; minimum := minimum s;
     maximum := maximum s; value := value s; rendered := rendered s;
     background := background s |}.

Definition setStep (x : Q) (s : Slider) : Slider :=
  {| unitIncrement := unitIncrement s; step := Some x; minimum := minimum s;
     maximum := maximum s; value := value s; rendered := rendered s;
     background := background s |}.

Definition setMinimum (x : Q) (s : Slider) : Slider :=
  {| unitIncrement := unitIncrement s; step := step s; minimum := Some x;
     maximum := maximum s; value := value s; rendered := rendered s;
     background := background s |}.

Definition setMaximum (x : Q) (s : Slider) : Slider :=
  {| unitIncrement := unitIncrement s; step := step s; minimum := minimum s;
     maximum := Some x; value := value s; rendered := rendered s;
     background := background s |}.

(** [slider.render(div)]; the node added to the panel is recorded by the
    caller. *)
Definition render (s : Slider) : Slider :=
  {| unitIncrement := unitIncrement s; step := step s; minimum := minimum s;
     maximum := maximum s; value := value s; rendered := true;
     background := background s |}.

(** [slider.animatedSetValue(v)]: the value the thumb is sent to.  The
    change events the widget dispatches while it moves are the steps
    [sliderChange] below. *)
Definition animatedSetValue (x : Q) (s : Slider) : Slider :=
  {| unitIncrement := unitIncrement s; step := step s; minimum := minimum s;
     maximum := maximum s; value := Some x; rendered := rendered s;
     background := background s |}.

(** [goog.style.setStyle(slider.getElement(), 'background', g)] *)
Definition setBackground (g : string) (s : Slider) : Slider :=
  {| unitIncrement := unitIncrement s; step := step s; minimum := minimum s;
     maximum := maximum s; value := value s; rendered := rendered s;
     background := Some g |}.

(** ** The field *)

(** What a validator returns: [undefined], [null], or a colour. *)
Inductive validated := Undefined | Null | Colour (c : string).

(** The readout [span] created by [createLabelDom_]; [None] is an
    [innerHTML] never assigned. *)
Record Readout := mkReadout { innerHTML : option string }.

Record FieldColour := mkField {
  colour_ : string;
  name : string;
  validator_ : option (string -> validated);
  sourceBlock_ : option Block;
  hueSlider_ : option Slider;
  saturationSlider_ : option Slider;
  brightnessSlider_ : option Slider;
  hueReadout_ : option Readout;
  saturationReadout_ : option Readout;
  brightnessReadout_ : option Readout
}.

Definition set_colour_ (c : string) (f : FieldColour) : FieldColour :=
  {| colour_ := c; name := name f; validator_ := validator_ f;
     sourceBlock_ := sourceBlock_ f; hueSlider_ := hueSlider_ f;
     saturationSlider_ := saturationSlider_ f;
     brightnessSlider_ := brightnessSlider_ f; hueReadout_ := hueReadout_ f;
     saturationReadout_ := saturationReadout_ f;
     brightnessReadout_ := brightnessReadout_ f |}.

Definition set_sourceBlock_ (b : option Block) (f : FieldColour) : FieldColour :=
  {| colour_ := colour_ f; name := name f; validator_ := validator_ f;
     sourceBlock_ := b; hueSlider_ := hueSlider_ f;
     saturationSlider_ := saturationSlider_ f;
     brightnessSlider_ := brightnessSlider_ f; hueReadout_ := hueReadout_ f;
     saturationReadout_ := saturationReadout_ f;
     brightnessReadout_ := brightnessReadout_ f |}.

Definition set_hueSlider_ (s : option Slider) (f : FieldColour) : FieldColour :=
  {| colour_ := colour_ f; name := name f; validator_ := validator_ f;
     sourceBlock_ := sourceBlock_ f; hueSlider_ := s;
     saturationSlider_ := saturationSlider_ f;
     brightnessSlider_ := brightnessSlider_ f; hueReadout_ := hueReadout_ f;
     saturationReadout_ := saturationReadout_ f;
     brightnessReadout_ := brightnessReadout_ f |}.

Definition set_saturationSlider_ (s : option Slider) (f : FieldColour) : FieldColour :=
  {| colour_ := colour_ f; name := name f; validator_ := validator_ f;
     sourceBlock_ := sourceBlock_ f; hueSlider_ := hueSlider_ f;
     saturationSlider_ := s;
     brightnessSlider_ := brightnessSlider_ f; hueReadout_ := hueReadout_ f;
     saturationReadout_ := saturationReadout_ f;
     brightnessReadout_ := brightnessReadout_ f |}.

Definition set_brightnessSlider_ (s : option Slider) (f : FieldColour) : FieldColour :=
  {| colour_ := colour_ f; name := name f; validator_ := validator_ f;
     sourceBlock_ := sourceBlock_ f; hueSlider_ := hueSlider_ f;
     saturationSlider_ := saturationSlider_ f;
     brightnessSlider_ := s; hueReadout_ := hueReadout_ f;
     saturationReadout_ := saturationReadout_ f;
     brightnessReadout_ := brightnessReadout_ f |}.

Definition set_hueReadout_ (r : option Readout) (f : FieldColour) : FieldColour :=
  {| colour_ := colour_ f; name := name f; validator_ := validator_ f;
     sourceBlock_ := sourceBlock_ f; hueSlider_ := hueSlider_ f;
     saturationSlider_ := saturationSlider_ f;
     brightnessSlider_ := brightnessSlider_ f; hueReadout_ := r;
     saturationReadout_ := saturationReadout_ f;
     brightnessReadout_ := brightnessReadout_ f |}.

Definition set_saturationReadout_ (r : option Readout) (f : FieldColour) : FieldColour :=
  {| colour_ := colour_ f; name := name f; validator_ := validator_ f;
     sourceBlock_ := sourceBlock_ f; hueSlider_ := hueSlider_ f;
     saturationSlider_ := saturationSlider_ f;
     brightnessSlider_ := brightnessSlider_ f; hueReadout_ := hueReadout_ f;
     saturationReadout_ := r;
     brightnessReadout_ := brightnessReadout_ f |}.

Definition set_brightnessReadout_ (r : option Readout) (f : FieldColour) : FieldColour :=
  {| colour_ := colour_ f; name := name f; validator_ := validator_ f;
     sourceBlock_ := sourceBlock_ f; hueSlider_ := hueSlider_ f;
     saturationSlider_ := saturationSlider_ f;
     brightnessSlider_ := brightnessSlider_ f; hueReadout_ := hueReadout_ f;
     saturationReadout_ := saturationReadout_ f;
     brightnessReadout_ := r |}.

(** ** The world around the field *)

(** The three sliders, which also name the three sweeps of
    [makeHueGradient] (its [type] argument). *)
Inductive Channel := Hue | Saturation | Brightness.

(** The listeners the editor registers: the change handler of a slider
    or the [mousedown] handler of the eyedropper button. *)
Inductive Handler := SliderChange (ch : Channel) | EyedropperMouseDown.

(** Modelled from the spec: [Blockly.Events] is defined outside
    [field_colour.js].  A change event carries the owner block id, the
    kind of element (['field']), the field name, the old and the new
    value. *)
Record BlockChange := mkBlockChange {
  ev_blockId : string;
  ev_element : string;
  ev_name : string;
  ev_oldValue : string;
  ev_newValue : string
}.

(** What the editor puts into the content [div] of the panel. *)
Inductive Node :=
| LabelContainer (labelText : string)
| SliderNode (ch : Channel)
| EyedropperButton (src : string).

(** Modelled from the spec: [Blockly.DropDownDiv] is defined outside
    [field_colour.js].  The shared panel has a content [div], a pair of
    colours, a category tag and is shown or hidden. *)
Record DropDownDiv := mkDropDownDiv {
  dd_content : list Node;
  dd_colour : option (string * string);
  dd_category : option string;
  dd_visible : bool
}.

Record World := mkWorld {
  this : FieldColour;
  (* Blockly.Events *)
  events_enabled : bool;
  events_group : option string;
  events_fired : list BlockChange;
  (* the listeners registered and not yet removed, by key *)
  listeners : gmap nat Handler;
  nextKey : nat;
  (* class-level slots of Blockly.FieldColour *)
  hueChangeEventKey_ : option nat;
  saturationChangeEventKey_ : option nat;
  brightnessChangeEventKey_ : option nat;
  eyedropperEventData_ : option nat;
  (* Blockly.FieldColour.activateEyedropper is set *)
  activateEyedropper : bool;
  (* Blockly.mainWorkspace.options.pathToMedia *)
  pathToMedia : string;
  dropDownDiv : DropDownDiv
}.

Definition set_this (f : FieldColour) (w : World) : World :=
  {| this := f; events_enabled := events_enabled w;
     events_group := events_group w; events_fired := events_fired w;
     listeners := listeners w; nextKey := nextKey w;
     hueChangeEventKey_ := hueChangeEventKey_ w;
     saturationChangeEventKey_ := saturationChangeEventKey_ w;
     brightnessChangeEventKey_ := brightnessChangeEventKey_ w;
     eyedropperEventData_ := eyedropperEventData_ w;
     activateEyedropper := activateEyedropper w;
     pathToMedia := pathToMedia w; dropDownDiv := dropDownDiv w |}.

Definition set_events_group (g : option string) (w : World) : World :=
  {| this := this w; events_enabled := events_enabled w;
     events_group := g; events_fired := events_fired w;
     listeners := listeners w; nextKey := nextKey w;
     hueChangeEventKey_ := hueChangeEventKey_ w;
     saturationChangeEventKey_ := saturationChangeEventKey_ w;
     brightnessChangeEventKey_ := brightnessChangeEventKey_ w;
     eyedropperEventData_ := eyedropperEventData_ w;
     activateEyedropper := activateEyedropper w;
     pathToMedia := pathToMedia w; dropDownDiv := dropDownDiv w |}.

Definition set_events_fired (q : list BlockChange) (w : World) : World :=
  {| this := this w; events_enabled := events_enabled w;
     events_group := events_group w; events_fired := q;
     listeners := listeners w; nextKey := nextKey w;
     hueChangeEventKey_ := hueChangeEventKey_ w;
     saturationChangeEventKey_ := saturationChangeEventKey_ w;
     brightnessChangeEventKey_ := brightnessChangeEventKey_ w;
     eyedropperEventData_ := eyedropperEventData_ w;
     activateEyedropper := activateEyedropper w;
     pathToMedia := pathToMedia w; dropDownDiv := dropDownDiv w |}.

Definition set_listeners (l : gmap nat Handler) (n : nat) (w : World) : World :=
  {| this := this w; events_enabled := events_enabled w;
     events_group := events_group w; events_fired := events_fired w;
     listeners := l; nextKey := n;
     hueChangeEventKey_ := hueChangeEventKey_ w;
     saturationChangeEventKey_ := saturationChangeEventKey_ w;
     brightnessChangeEventKey_ := brightnessChangeEventKey_ w;
     eyedropperEventData_ := eyedropperEventData_ w;
     activateEyedropper := activateEyedropper w;
     pathToMedia := pathToMedia w; dropDownDiv := dropDownDiv w |}.

Definition set_changeEventKey_ (ch : Channel) (k : option nat) (w : World) : World :=
  {| this := this w; events_enabled := events_enabled w;
     events_group := events_group w; events_fired := events_fired w;
     listeners := listeners w; nextKey := nextKey w;
     hueChangeEventKey_ :=
       match ch with Hue => k | _ => hueChangeEventKey_ w end;
     saturationChangeEventKey_ :=
       match ch with Saturation => k | _ => saturationChangeEventKey_ w end;
     brightnessChangeEventKey_ :=
       match ch with Brightness => k | _ => brightnessChangeEventKey_ w end;
     eyedropperEventData_ := eyedropperEventData_ w;
     activateEyedropper := activateEyedropper w;
     pathToMedia := pathToMedia w; dropDownDiv := dropDownDiv w |}.

Definition set_eyedropperEventData_ (k : option nat) (w : World) : World :=
  {| this := this w; events_enabled := events_enabled w;
     events_group := events_group w; events_fired := events_fired w;
     listeners := listeners w; nextKey := nextKey w;
     hueChangeEventKey_ := hueChangeEventKey_ w;
     saturationChangeEventKey_ := saturationChangeEventKey_ w;
     brightnessChangeEventKey_ := brightnessChangeEventKey_ w;
     eyedropperEventData_ := k;
     activateEyedropper := activateEyedropper w;
     pathToMedia := pathToMedia w; dropDownDiv := dropDownDiv w |}.

Definition set_dropDownDiv (d : DropDownDiv) (w : World) : World :=
  {| this := this w; events_enabled := events_enabled w;
     events_group := events_group w; events_fired := events_fired w;
     listeners := listeners w; nextKey := nextKey w;
     hueChangeEventKey_ := hueChangeEventKey_ w;
     saturationChangeEventKey_ := saturationChangeEventKey_ w;
     brightnessChangeEventKey_ := brightnessChangeEventKey_ w;
     eyedropperEventData_ := eyedropperEventData_ w;
     activateEyedropper := activateEyedropper w;
     pathToMedia := pathToMedia w; dropDownDiv := d |}.

(** ** Computations that update the world and may throw *)

(** The two kinds of exception the field can meet: a property read on
    [undefined] or [null], and an error thrown by [goog.color]. *)
Inductive exn := TypeError | ColorError.

Inductive completion (A : Type) : Type :=
| Normal (a : A)
| Throw (e : exn).
Arguments Normal {A} a.
Arguments Throw {A} e.

Definition M (A : Type) : Type := World -> completion A * World.

Definition ret {A} (a : A) : M A := fun w => (Normal a, w).

Definition bind {A B} (m : M A) (k : A -> M B) : M B :=
  fun w => match m w with
           | (Normal a, w') => k a w'
           | (Throw e, w') => (Throw e, w')
           end.

Definition throw {A} (e : exn) : M A := fun w => (Throw e, w).

Definition gets {A} (f : World -> A) : M A := fun w => (Normal (f w), w).

Definition modify (f : World -> World) : M unit := fun w => (Normal tt, f w).

Declare Scope js_scope.
Delimit Scope js_scope with js.
Notation "'let*' x ':=' m 'in' k" := (bind m (fun x => k))
  (at level 10, x name, m at level 100, k at level 200) : js_scope.
Notation "m ';;' k" := (bind m (fun _ => k))
  (at level 100, k at level 200, right associativity) : js_scope.
Local Open Scope js_scope.

(** The world a computation leaves behind, however it completes. *)
Definition exec {A} (m : M A) (w : World) : World := snd (m w).

(** How a computation completes. *)
Definition outcome {A} (m : M A) (w : World) : completion A := fst (m w).

(** [x.p] where [x] may be [undefined] or [null]. *)
Definition deref {A} (x : option A) : M A :=
  match x with Some a => ret a | None => throw TypeError end.

(** A call into [goog.color]. *)
Definition goog {A} (x : option A) : M A :=
  match x with Some a => ret a | None => throw ColorError end.

Definition when (b : bool) (m : M unit) : M unit :=
  if b then m else ret tt.

Definition modifyThis (f : FieldColour -> FieldColour) : M unit :=
  modify (fun w => set_this (f (this w)) w).

(** ** The collaborators of the field *)

(** Modelled from the spec: the functions of [Blockly.Events], defined
    outside [field_colour.js].  Emission of change events is enabled or
    not, an event fired joins the queue, and [setGroup(false)] clears the
    event group. *)

(** [Blockly.Events.isEnabled()] *)
Definition isEnabled : M bool := gets events_enabled.

(** [Blockly.Events.fire(event)] *)
Definition fire (ev : BlockChange) : M unit :=
  modify (fun w => set_events_fired (events_fired w ++ [ev]) w).

(** [new Blockly.Events.BlockChange(block, element, name, oldValue, newValue)] *)
Definition new_BlockChange (block : Block) (element name oldValue newValue : string)
  : BlockChange :=
  {| ev_blockId := block_id block; ev_element := element; ev_name := name;
     ev_oldValue := oldValue; ev_newValue := newValue |}.

(** [Blockly.Events.setGroup(false)] *)
Definition setGroup_false : M unit := modify (set_events_group None).

(** [goog.events.listen(src, type, listener)]: the listener is registered
    under a key that no earlier call has returned.  A key is an object, so
    every key is truthy, also the one numbered 0 here. *)
Definition listen (h : Handler) : M nat :=
  let* k := gets nextKey in
  modify (fun w => set_listeners (<[k := h]> (listeners w)) (S k) w) ;;
  ret k.

(** [goog.events.unlistenByKey(key)]; a key already removed is ignored. *)
Definition unlistenByKey (k : nat) : M unit :=
  modify (fun w => set_listeners (delete k (listeners w)) (nextKey w) w).

(** Modelled from the spec: [Blockly.bindEventWithChecks_] and
    [Blockly.unbindEvent_] are defined outside [field_colour.js].  The
    first registers a listener and returns its handle, the second removes
    the listener a handle stands for. *)
Definition bindEventWithChecks_ (h : Handler) : M nat := listen h.

Definition unbindEvent_ (k : nat) : M unit := unlistenByKey k.

(** Modelled from the spec: the methods of [Blockly.DropDownDiv] the editor
    calls. *)
Definition hideWithoutAnimation (d : DropDownDiv) : DropDownDiv :=
  {| dd_content := dd_content d; dd_colour := dd_colour d;
     dd_category := dd_category d; dd_visible := false |}.

Definition clearContent (d : DropDownDiv) : DropDownDiv :=
  {| dd_content := []; dd_colour := dd_colour d;
     dd_category := dd_category d; dd_visible := dd_visible d |}.

Definition appendChild (n : Node) : M unit :=
  modify (fun w =>
    let d := dropDownDiv w in
    set_dropDownDiv
      {| dd_content := dd_content d ++ [n]; dd_colour := dd_colour d;
         dd_category := dd_category d; dd_visible := dd_visible d |} w).

Definition DropDownDiv_setColour (c1 c2 : string) (d : DropDownDiv) : DropDownDiv :=
  {| dd_content := dd_content d; dd_colour := Some (c1, c2);
     dd_category := dd_category d; dd_visible := dd_visible d |}.

Definition setCategory (c : option string) (d : DropDownDiv) : DropDownDiv :=
  {| dd_content := dd_content d; dd_colour := dd_colour d;
     dd_category := c; dd_visible := dd_visible d |}.

Definition showPositionedByBlock (d : DropDownDiv) : DropDownDiv :=
  {| dd_content := dd_content d; dd_colour := dd_colour d;
     dd_category := dd_category d; dd_visible := true |}.

Definition modifyDropDownDiv (f : DropDownDiv -> DropDownDiv) : M unit :=
  modify (fun w => set_dropDownDiv (f (dropDownDiv w)) w).

(** Modelled from the spec: [Blockly.Field.prototype.init], the
    initialiser of the base class, is defined outside [field_colour.js].
    It binds the field to the host block. *)
Definition Field_init (block : Block) : M unit :=
  modifyThis (set_sourceBlock_ (Some block)).

(** Modelled from the spec: [Blockly.Field.prototype.callValidator] is
    defined outside [field_colour.js].  The validator contract:
    [undefined] lets the candidate stand, [null] rejects it, any other
    string replaces it; without a validator the candidate stands.  The
    result is a colour or [null] ([None]). *)
Definition callValidator (text : string) : M (option string) :=
  let* f := gets this in
  match validator_ f with
  | None => ret (Some text)
  | Some validate =>
      match validate text with
      | Undefined => ret (Some text)
      | Null => ret None
      | Colour c => ret (Some c)
      end
  end.

(** ** The methods of [Blockly.FieldColour] *)

Section Methods.

Context {GC : goog_color}.

(** [Blockly.FieldColour.prototype.getValue] *)
Definition getValue : M string := gets (fun w => colour_ (this w)).

(** The loop of [makeHueGradient]: one stop is pushed per [n]; a throw of
    [goog.color.hsvToHex] ends it. *)
Fixpoint gradientStops (hsv0 : hsv) (type : Channel) (ns : list nat)
    (stops : list string) : option (list string) :=
  match ns with
  | [] => Some stops
  | n :: ns' =>
      let n' := inject_Z (Z.of_nat n) in
      match
        match type with
        | Hue => hsvToHex n' (hsv_1 hsv0) (hsv_2 hsv0)
        | Saturation => hsvToHex (hsv_0 hsv0) (n' / 360) (hsv_2 hsv0)
        | Brightness => hsvToHex (hsv_0 hsv0) (hsv_1 hsv0) (255 * n' / 360)
        end
      with
      | Some stop => gradientStops hsv0 type ns' (stops ++ [stop])
      | None => None
      end
  end.

(** The local function [makeHueGradient] of [setValue], for [n] from 0 to
    360; [None] when [goog.color] throws. *)
Definition makeHueGradient (colour : string) (type : Channel) : option string :=
  match hexToHsv colour with
  | Some hsv0 =>
      match gradientStops hsv0 type (seq 0 361) [] with
      | Some stops =>
          Some ("-webkit-linear-gradient(left, " +:+ String.concat "," stops +:+ ")")
      | None => None
      end
  | None => None
  end.

(** The last part of [setValue]: with the sliders of an editor at hand,
    their backgrounds and the three readouts are refreshed. *)
Definition refreshEditor (colour : string) : M unit :=
  let* f := gets this in
  match hueSlider_ f with
  | Some hueSlider =>
      let* g := goog (makeHueGradient colour Hue) in
      modifyThis (set_hueSlider_ (Some (setBackground g hueSlider))) ;;
      let* saturationSlider := gets (fun w => saturationSlider_ (this w)) in
      let* saturationSlider := deref saturationSlider in
      let* g := goog (makeHueGradient colour Saturation) in
      modifyThis (set_saturationSlider_ (Some (setBackground g saturationSlider))) ;;
      let* brightnessSlider := gets (fun w => brightnessSlider_ (this w)) in
      let* brightnessSlider := deref brightnessSlider in
      let* g := goog (makeHueGradient colour Brightness) in
      modifyThis (set_brightnessSlider_ (Some (setBackground g brightnessSlider))) ;;
      let* hsv0 := goog (hexToHsv colour) in
      let* readout := gets (fun w => hueReadout_ (this w)) in
      let* _ := deref readout in
      modifyThis (set_hueReadout_
        (Some (mkReadout (Some (floorToFixed0 (100 * hsv_0 hsv0 / 360)))))) ;;
      let* readout := gets (fun w => saturationReadout_ (this w)) in
      let* _ := deref readout in
      modifyThis (set_saturationReadout_
        (Some (mkReadout (Some (floorToFixed0 (100 * hsv_1 hsv0)))))) ;;
      let* readout := gets (fun w => brightnessReadout_ (this w)) in
      let* _ := deref readout in
      modifyThis (set_brightnessReadout_
        (Some (mkReadout (Some (floorToFixed0 (100 * hsv_2 hsv0 / 255))))))
  | None => ret tt
  end.

(** [Blockly.FieldColour.prototype.setValue] *)
Definition setValue (colour : string) : M unit :=
  let* f := gets this in
  match sourceBlock_ f with
  | Some block =>
      let* enabled := isEnabled in
      when (enabled && negb (String.eqb (colour_ f) colour))
        (fire (new_BlockChange block "field" (name f) (colour_ f) colour))
  | None => ret tt
  end ;;
  modifyThis (set_colour_ colour) ;;
  let* f := gets this in
  match sourceBlock_ f with
  | Some block =>
      modifyThis (set_sourceBlock_
        (Some (setColour colour colour (getColourTertiary block) block)))
  | None => ret tt
  end ;;
  refreshEditor colour.

(** [Blockly.FieldColour.prototype.init] *)
Definition init (block : Block) : M unit :=
  Field_init block ;;
  let* v := getValue in
  setValue v.

(** [.] in a regular expression: any character but a line terminator. *)
Definition dot (c : ascii) : bool :=
  negb (Ascii.eqb c "010") && negb (Ascii.eqb c "013").

(** [colour.match(/^#(.)\1(.)\2(.)\3$/)]: the groups [m[1]], [m[2]] and
    [m[3]] of a match, [None] (null) without one. *)
Definition match_rgb (colour : string) : option (ascii * ascii * ascii) :=
  match colour with
  | String h (String r (String r' (String g (String g'
      (String b (String b' EmptyString)))))) =>
      if Ascii.eqb h "#" && dot r && Ascii.eqb r' r && dot g && Ascii.eqb g' g
         && dot b && Ascii.eqb b' b
      then Some (r, g, b) else None
  | _ => None
  end.

(** [Blockly.FieldColour.prototype.getText] *)
Definition getText : M string :=
  let* colour := gets (fun w => colour_ (this w)) in
  match match_rgb colour with
  | Some (m1, m2, m3) =>
      ret (String "#" (String m1 (String m2 (String m3 EmptyString))))
  | None => ret colour
  end.

(** The callback that [activateEyedropperInternal_] hands to the
    eyedropper: [function(value) { thisField.setValue(value); }]. *)
Definition eyedropperCallback (value : string) : M unit := setValue value.

(** [Blockly.FieldColour.prototype.activateEyedropperInternal_]: the hook
    receives [eyedropperCallback]; calling a hook that is [null] throws.
    The picks of the host are the later runs of the callback. *)
Definition activateEyedropperInternal_ : M unit :=
  let* hook := gets activateEyedropper in
  if hook : bool then ret tt else throw TypeError.

(** [Blockly.FieldColour.prototype.createLabelDom_]: the container node and
    the readout node. *)
Definition createLabelDom_ (labelText : string) : Node * Readout :=
  (LabelContainer labelText, mkReadout None).

(** [Blockly.FieldColour.EYEDROPPER_PATH] *)
Definition EYEDROPPER_PATH : string := "eyedropper.svg".

(** The end of each of the three change handlers of [showEditor_], the same
    text in all three: the validator is called when the field has a source
    block, and the colour is set unless it is [null]. *)
Definition validateAndSet (colour : string) : M unit :=
  let* f := gets this in
  let* colour' :=
    match sourceBlock_ f with
    | Some _ => callValidator colour
    | None => ret (Some colour)
    end in
  match colour' with
  | Some c => setValue c
  | None => ret tt
  end.

(** The change handler of the hue slider; [hue] is
    [event.target.getValue()]. *)
Definition hueChange (hue : Q) : M unit :=
  let* v := getValue in
  let* hsv0 := goog (hexToHsv v) in
  let* colour := goog (hsvToHex hue (hsv_1 hsv0) (hsv_2 hsv0)) in
  validateAndSet colour.

(** The change handler of the saturation slider. *)
Definition saturationChange (saturation : Q) : M unit :=
  let* v := getValue in
  let* hsv0 := goog (hexToHsv v) in
  let* colour := goog (hsvToHex (hsv_0 hsv0) saturation (hsv_2 hsv0)) in
  validateAndSet colour.

(** The change handler of the brightness slider. *)
Definition brightnessChange (brightness : Q) : M unit :=
  let* v := getValue in
  let* hsv0 := goog (hexToHsv v) in
  let* colour := goog (hsvToHex (hsv_0 hsv0) (hsv_1 hsv0) brightness) in
  validateAndSet colour.

(** A change event of a slider reaches the handler registered for it. *)
Definition sliderChange (ch : Channel) (targetValue : Q) : M unit :=
  match ch with
  | Hue => hueChange targetValue
  | Saturation => saturationChange targetValue
  | Brightness => brightnessChange targetValue
  end.

(** [Blockly.FieldColour.prototype.showEditor_] *)
Definition showEditor_ : M unit :=
  modifyDropDownDiv hideWithoutAnimation ;;
  modifyDropDownDiv clearContent ;;
  let hueElements := createLabelDom_ "Hue" in
  appendChild (fst hueElements) ;;
  modifyThis (set_hueReadout_ (Some (snd hueElements))) ;;
  let hueSlider := new_Slider in
  let hueSlider := setUnitIncrement 5 hueSlider in
  let hueSlider := setMinimum 0 hueSlider in
  let hueSlider := setMaximum 359 hueSlider in
  let hueSlider := render hueSlider in
  appendChild (SliderNode Hue) ;;
  let* v := getValue in
  let* hsv0 := goog (hexToHsv v) in
  let hueSlider := animatedSetValue (hsv_0 hsv0) hueSlider in
  let saturationElements := createLabelDom_ "Saturation" in
  appendChild (fst saturationElements) ;;
  modifyThis (set_saturationReadout_ (Some (snd saturationElements))) ;;
  let saturationSlider := new_Slider in
  let saturationSlider := setUnitIncrement (1 # 100) saturationSlider in
  let saturationSlider := setStep (1 # 1000) saturationSlider in
  let saturationSlider := setMinimum (1 # 100) saturationSlider in
  let saturationSlider := setMaximum (99 # 100) saturationSlider in
  let saturationSlider := render saturationSlider in
  appendChild (SliderNode Saturation) ;;
  let brightnessElements := createLabelDom_ "Brightness" in
  appendChild (fst brightnessElements) ;;
  modifyThis (set_brightnessReadout_ (Some (snd brightnessElements))) ;;
  let brightnessSlider := new_Slider in
  let brightnessSlider := setUnitIncrement 2 brightnessSlider in
  let brightnessSlider := setMinimum 5 brightnessSlider in
  let brightnessSlider := setMaximum 255 brightnessSlider in
  let brightnessSlider := render brightnessSlider in
  appendChild (SliderNode Brightness) ;;
  modifyThis (set_hueSlider_ (Some hueSlider)) ;;
  modifyThis (set_saturationSlider_ (Some saturationSlider)) ;;
  modifyThis (set_brightnessSlider_ (Some brightnessSlider)) ;;
  let* key := listen (SliderChange Hue) in
  modify (set_changeEventKey_ Hue (Some key)) ;;
  let* key := listen (SliderChange Saturation) in
  modify (set_changeEventKey_ Saturation (Some key)) ;;
  let* hook := gets activateEyedropper in
  (if hook : bool then
     let* path := gets pathToMedia in
     appendChild (EyedropperButton (path +:+ EYEDROPPER_PATH)) ;;
     let* data := bindEventWithChecks_ EyedropperMouseDown in
     modify (set_eyedropperEventData_ (Some data))
   else ret tt) ;;
  let* key := listen (SliderChange Brightness) in
  modify (set_changeEventKey_ Brightness (Some key)) ;;
  modifyDropDownDiv (DropDownDiv_setColour "#ffffff" "#dddddd") ;;
  let* f := gets this in
  let* block := deref (sourceBlock_ f) in
  let* parent := deref (block_parentBlock_ block) in
  modifyDropDownDiv (setCategory (getCategory parent)) ;;
  modifyDropDownDiv showPositionedByBlock ;;
  let* v := getValue in
  let* hsv0 := goog (hexToHsv v) in
  modifyThis (set_brightnessSlider_
    (Some (animatedSetValue (hsv_2 hsv0) brightnessSlider))) ;;
  let* v := getValue in
  let* hsv0 := goog (hexToHsv v) in
  modifyThis (set_saturationSlider_
    (Some (animatedSetValue (hsv_1 hsv0) saturationSlider))) ;;
  let* v := getValue in
  let* hsv0 := goog (hexToHsv v) in
  modifyThis (set_hueSlider_
    (Some (animatedSetValue (hsv_0 hsv0) hueSlider))) ;;
  let* v := getValue in
  setValue v.

(** [Blockly.FieldColour.widgetDispose_] *)
Definition widgetDispose_ : M unit :=
  let* key := gets hueChangeEventKey_ in
  match key with Some k => unlistenByKey k | None => ret tt end ;;
  let* key := gets saturationChangeEventKey_ in
  match key with Some k => unlistenByKey k | None => ret tt end ;;
  let* key := gets brightnessChangeEventKey_ in
  match key with Some k => unlistenByKey k | None => ret tt end ;;
  let* data := gets eyedropperEventData_ in
  match data with Some d => unbindEvent_ d | None => ret tt end ;;
  setGroup_false.

(** An event delivered to the listener registered under [key]: a change
    event carries the value of its slider, a [mousedown] on the eyedropper
    button carries none.  A key that is not registered reaches no one. *)
Definition dispatch (key : nat) (targetValue : Q) : M unit :=
  let* l := gets listeners in
  match l !! key with
  | Some (SliderChange ch) => sliderChange ch targetValue
  | Some EyedropperMouseDown => activateEyedropperInternal_
  | None => ret tt
  end.

End Methods.

(** ** The colour conversions of the Closure Library *)

(** [goog.color.hexToHsv] and [goog.color.hsvToHex] of the Closure Library
    ([closure/goog/color/color.js], which the field requires and which is
    no part of scratch-blocks), in exact arithmetic.  The properties of the
    field are proved for any [goog_color]; this instance is the one at
    which they are evaluated on concrete colours. *)
Module Closure.

Local Open Scope Z_scope.

(** One hexadecimal digit, in either case. *)
Definition hexDigit (c : ascii) : option Z :=
  let n := Z.of_N (N_of_ascii c) in
  if (48 <=? n) && (n <=? 57) then Some (n - 48)
  else if (97 <=? n) && (n <=? 102) then Some (n - 87)
  else if (65 <=? n) && (n <=? 70) then Some (n - 55)
  else None.

(** [goog.color.hexToRgb]: [#rrggbb], or [#rgb] with each digit doubled;
    anything else is not a valid hex colour. *)
Definition hexToRgb (hexColor : string) : option (Z * Z * Z) :=
  match hexColor with
  | String "#" digits =>
      match mapM hexDigit (String.list_ascii_of_string digits) with
      | Some [r1; r0; g1; g0; b1; b0] =>
          Some (16 * r1 + r0, 16 * g1 + g0, 16 * b1 + b0)
      | Some [r; g; b] => Some (17 * r, 17 * g, 17 * b)
      | _ => None
      end
  | _ => None
  end.

(** [goog.color.rgbToHsv] *)
Definition rgbToHsv (red green blue : Z) : hsv :=
  let max := Z.max (Z.max red green) blue in
  let min := Z.min (Z.min red green) blue in
  if min =? max then Hsv 0 0 (inject_Z max)
  else
    let delta := inject_Z (max - min) in
    let saturation := (delta / inject_Z max)%Q in
    let hue :=
      if red =? max then (inject_Z (green - blue) / delta)%Q
      else if green =? max then (2 + inject_Z (blue - red) / delta)%Q
      else (4 + inject_Z (red - green) / delta)%Q in
    let hue := (hue * 60)%Q in
    let hue := if Qlt_le_dec hue 0 then (hue + 360)%Q else hue in
    let hue := if Qlt_le_dec 360 hue then (hue - 360)%Q else hue in
    Hsv hue saturation (inject_Z max).

Definition hexToHsv (hex : string) : option hsv :=
  match hexToRgb hex with
  | Some (r, g, b) => Some (rgbToHsv r g b)
  | None => None
  end.

(** [goog.color.hsvToRgb] *)
Definition hsvToRgb (h s brightness : Q) : Z * Z * Z :=
  let '(red, green, blue) :=
    if Qeq_bool s 0 then (brightness, brightness, brightness)
    else
      let sextant := Qfloor (h / 60) in
      let remainder := (h / 60 - inject_Z sextant)%Q in
      let val1 := (brightness * (1 - s))%Q in
      let val2 := (brightness * (1 - s * remainder))%Q in
      let val3 := (brightness * (1 - s * (1 - remainder)))%Q in
      match sextant with
      | 1 => (val2, brightness, val1)
      | 2 => (val1, brightness, val3)
      | 3 => (val1, val2, brightness)
      | 4 => (val3, val1, brightness)
      | 5 => (brightness, val1, val2)
      | 6 | 0 => (brightness, val3, val1)
      | _ => (0%Q, 0%Q, 0%Q)
      end in
  (Qfloor red, Qfloor green, Qfloor blue).

(** One digit of [Number.prototype.toString(16)]. *)
Definition hexChar (d : Z) : ascii :=
  ascii_of_N (Z.to_N (if d <? 10 then 48 + d else 87 + d)).

(** [goog.color.rgbToHex]: a channel outside 0..255 is not a valid colour. *)
Definition rgbToHex (r g b : Z) : option string :=
  let valid x := (0 <=? x) && (x <=? 255) in
  if valid r && valid g && valid b then
    Some (String "#" (String.string_of_list_ascii
      [hexChar (r / 16); hexChar (r mod 16); hexChar (g / 16);
       hexChar (g mod 16); hexChar (b / 16); hexChar (b mod 16)]))
  else None.

Definition hsvToHex (h s v : Q) : option string :=
  let '(r, g, b) := hsvToRgb h s v in rgbToHex r g b.

End Closure.

#[export] Instance closure_color : goog_color :=
  {| hexToHsv := Closure.hexToHsv; hsvToHex := Closure.hsvToHex |}.

(** ** Notions used in the statements *)

(** A computation keeps a part [F] of the world when the world it leaves
    behind has the same [F], whether it returns or throws. *)
Definition keeps {T A} (F : World -> T) (m : M A) : Prop :=
  forall w, F (exec m w) = F w.

(** What the field holds apart from its editor. *)
Definition fieldCore (w : World) :=
  (colour_ (this w), name (this w), validator_ (this w), sourceBlock_ (this w)).

(** The event queue. *)
Definition eventQueue (w : World) :=
  (events_enabled w, events_group w, events_fired w).

(** The listeners and the class-level slots that hold their keys. *)
Definition registry (w : World) :=
  (listeners w, nextKey w, hueChangeEventKey_ w, saturationChangeEventKey_ w,
   brightnessChangeEventKey_ w, eyedropperEventData_ w, activateEyedropper w).

(** Removing the listener a class-level slot stands for, as
    [widgetDispose_] does for each of the four slots. *)
Definition unregister (key : option nat) (l : gmap nat Handler) : gmap nat Handler :=
  match key with Some k => delete k l | None => l end.

(** What the setters of a slider have fixed: unit increment, step,
    minimum and maximum. *)
Definition sliderConfig (s : Slider) : option Q * option Q * option Q * option Q :=
  (unitIncrement s, step s, minimum s, maximum s).

Definition sliderConfigs (w : World) :=
  (sliderConfig <$> hueSlider_ (this w),
   sliderConfig <$> saturationSlider_ (this w),
   sliderConfig <$> brightnessSlider_ (this w)).

(** The three readouts as [setValue] writes them for a colour with the
    components [hsv0]. *)
Definition readouts (hsv0 : hsv) : string * string * string :=
  (floorToFixed0 (100 * hsv_0 hsv0 / 360),
   floorToFixed0 (100 * hsv_1 hsv0),
   floorToFixed0 (100 * hsv_2 hsv0 / 255)).

(** The text of a readout, when it has one. *)
Definition shown (r : option Readout) : option string :=
  match r with Some r' => innerHTML r' | None => None end.

(** The strings [#rrggbb] with equal digits in each pair, and [#rgb]. *)
Definition rrggbb (r g b : ascii) : string :=
  String "#" (String r (String r (String g (String g (String b (String b EmptyString)))))).

Definition rgb (r g b : ascii) : string :=
  String "#" (String r (String g (String b EmptyString))).

(** A hexadecimal digit, in either case. *)
Definition isHexDigit (c : ascii) : bool :=
  let n := N_of_ascii c in
  ((48 <=? n) && (n <=? 57) || (97 <=? n) && (n <=? 102)
   || (65 <=? n) && (n <=? 70))%N.

(** The change event that [setValue] owes for a new colour: one event when
    the field has a source block, events are enabled and the colour
    differs from the stored one, none otherwise. *)
Definition changeEvents (w : World) (newColour : string) : list BlockChange :=
  match sourceBlock_ (this w) with
  | Some block =>
      if events_enabled w && negb (String.eqb (colour_ (this w)) newColour)
      then [ {| ev_blockId := block_id block; ev_element := "field";
                ev_name := name (this w); ev_oldValue := colour_ (this w);
                ev_newValue := newColour |} ]
      else []
  | None => []
  end.

(** The world in which [setValue] reaches the refresh of the editor: the
    event is queued, the colour stored and pushed to the source block. *)
Definition stored (colour : string) (w : World) : World :=
  set_this
    (set_sourceBlock_
       match sourceBlock_ (this w) with
       | Some block => Some (setColour colour colour (block_colourTertiary_ block) block)
       | None => None
       end
       (set_colour_ colour (this w)))
    (set_events_fired (events_fired w ++ changeEvents w colour) w).

(** What the field holds of its editor: the three sliders and the three
    readouts. *)
Definition editorState (w : World) :=
  (hueSlider_ (this w), saturationSlider_ (this w), brightnessSlider_ (this w),
   hueReadout_ (this w), saturationReadout_ (this w), brightnessReadout_ (this w)).

(** Everything of a slider but its background. *)
Definition sliderSettings (s : Slider) :=
  (unitIncrement s, step s, minimum s, maximum s, value s, rendered s).

Definition editorSettings (w : World) :=
  (sliderSettings <$> hueSlider_ (this w),
   sliderSettings <$> saturationSlider_ (this w),
   sliderSettings <$> brightnessSlider_ (this w)).

(** The four class-level slots that hold listener keys. *)
Definition slots (w : World) : list (option nat) :=
  [hueChangeEventKey_ w; saturationChangeEventKey_ w;
   brightnessChangeEventKey_ w; eyedropperEventData_ w].


(** The world in which the field holds the value [text]. *)
Definition holding (text : string) (w : World) : World :=
  set_this (set_colour_ text (this w)) w.



(** A class-level slot that holds the key of a registered listener
    [h]. *)
Definition live (w : World) (slot : option nat) (h : Handler) : Prop :=
  exists k, slot = Some k /\ listeners w !! k = Some h.

(** The three sliders of the field. *)
Definition sliders (w : World) :=
  (hueSlider_ (this w), saturationSlider_ (this w), brightnessSlider_ (this w)).

(** The nodes of the panel: a label and a slider per channel, and the
    button of the eyedropper when a hook is installed. *)
Definition panelContent (w : World) : list Node :=
  [LabelContainer "Hue"; SliderNode Hue;
   LabelContainer "Saturation"; SliderNode Saturation;
   LabelContainer "Brightness"; SliderNode Brightness]
  ++ (if activateEyedropper w
      then [EyedropperButton (pathToMedia w +:+ "eyedropper.svg")] else []).

Section Notions.

Context {GC : goog_color}.

(** The colour that a change of slider [ch] to [x] proposes for a field
    whose colour has the components [hsv0]: the changed component is
    replaced and the result converted back. *)
Definition candidate (ch : Channel) (x : Q) (hsv0 : hsv) : option string :=
  match ch with
  | Hue => hsvToHex x (hsv_1 hsv0) (hsv_2 hsv0)
  | Saturation => hsvToHex (hsv_0 hsv0) x (hsv_2 hsv0)
  | Brightness => hsvToHex (hsv_0 hsv0) (hsv_1 hsv0) x
  end.

(** The registry that [showEditor_] leaves behind.  When the first call of
    [goog.color.hexToHsv] throws, nothing is registered yet.  Otherwise
    the hue, the saturation, the eyedropper (with a hook installed) and the
    brightness listener are registered in this order, under fresh keys
    that the class-level slots hold. *)
Definition registryOpened (w : World) :=
  let k := nextKey w in
  match hexToHsv (colour_ (this w)) with
  | None => registry w
  | Some _ =>
      if activateEyedropper w then
        (<[S (S (S k)) := SliderChange Brightness]>
           (<[S (S k) := EyedropperMouseDown]>
              (<[S k := SliderChange Saturation]>
                 (<[k := SliderChange Hue]> (listeners w)))),
         S (S (S (S k))), Some k, Some (S k), Some (S (S (S k))),
         Some (S (S k)), true)
      else
        (<[S (S k) := SliderChange Brightness]>
           (<[S k := SliderChange Saturation]>
              (<[k := SliderChange Hue]> (listeners w))),
         S (S (S k)), Some k, Some (S k), Some (S (S k)),
         eyedropperEventData_ w, false)
  end.

(** The editor opened and closed [n] times in a row. *)
Fixpoint sessions (n : nat) (w : World) : World :=
  match n with
  | O => w
  | S n' => sessions n' (exec widgetDispose_ (exec showEditor_ w))
  end.

End Notions.

(** ** Sample worlds *)

Module Sample.

Definition parent : Block :=
  {| block_id := "parent"; block_category_ := Some "pen";
     block_colour_ := "#0fbd8c"; block_colourSecondary_ := "#0da57a";
     block_colourTertiary_ := "#0b8e69"; block_parentBlock_ := None |}.

(** A shadow block holding a colour field, plugged into [parent]. *)
Definition picker : Block :=
  {| block_id := "picker"; block_category_ := None;
     block_colour_ := "#ff0000"; block_colourSecondary_ := "#ff0000";
     block_colourTertiary_ := "#000000"; block_parentBlock_ := Some parent |}.

(** A field as the constructor leaves it: no block, no editor. *)
Definition field (colour : string) (validator : option (string -> validated))
  : FieldColour :=
  {| colour_ := colour; name := "COLOUR"; validator_ := validator;
     sourceBlock_ := None; hueSlider_ := None; saturationSlider_ := None;
     brightnessSlider_ := None; hueReadout_ := None;
     saturationReadout_ := None; brightnessReadout_ := None |}.

(** A world with events enabled, no listener, and the panel closed. *)
Definition world (f : FieldColour) (eyedropper : bool) : World :=
  {| this := f; events_enabled := true; events_group := None;
     events_fired := []; listeners := ∅; nextKey := 0;
     hueChangeEventKey_ := None; saturationChangeEventKey_ := None;
     brightnessChangeEventKey_ := None; eyedropperEventData_ := None;
     activateEyedropper := eyedropper; pathToMedia := "media/";
     dropDownDiv :=
       {| dd_content := []; dd_colour := None; dd_category := None;
          dd_visible := false |} |}.

(** The validator that rejects every colour. *)
Definition reject : string -> validated := fun _ => Null.

(** A field holding red. *)
Definition red (validator : option (string -> validated)) : FieldColour :=
  field "#ff0000" validator.

(** The red field installed on [picker]. *)
Definition attached (validator : option (string -> validated)) (eyedropper : bool)
  : World :=
  exec (init picker) (world (red validator) eyedropper).

(** The same with the editor open. *)
Definition opened (validator : option (string -> validated)) (eyedropper : bool)
  : World :=
  exec showEditor_ (attached validator eyedropper).

(** The editor opened on a red field that has no source block:
    [showEditor_] registers its listeners and then throws. *)
Definition orphan (validator : option (string -> validated)) : World :=
  exec showEditor_ (world (red validator) false).

End Sample.

(** ** Reasoning about computations *)

Lemma exec_bind {A B} (m : M A) (k : A -> M B) (w : World) :
  exec (bind m k) w =
    match outcome m w with
    | Normal a => exec (k a) (exec m w)
    | Throw _ => exec m w
    end.
Proof. unfold exec, outcome, bind. destruct (m w) as [[a|e] w']; reflexivity. Qed.

Section Keeps.

Context {T : Type} (F : World -> T).

Lemma keeps_ret {A} (a : A) : keeps F (ret a).
Proof. intros w. reflexivity. Qed.

Lemma keeps_throw {A} (e : exn) : keeps F (@throw A e).
Proof. intros w. reflexivity. Qed.

Lemma keeps_gets {A} (f : World -> A) : keeps F (gets f).
Proof. intros w. reflexivity. Qed.

Lemma keeps_deref {A} (x : option A) : keeps F (deref x).
Proof. destruct x; intros w; reflexivity. Qed.

Lemma keeps_goog {A} (x : option A) : keeps F (goog x).
Proof. destruct x; intros w; reflexivity. Qed.

Lemma keeps_modify (f : World -> World) :
  (forall w, F (f w) = F w) -> keeps F (modify f).
Proof. intros Hf w. apply Hf. Qed.

Lemma keeps_bind {A B} (m : M A) (k : A -> M B) :
  keeps F m -> (forall a, keeps F (k a)) -> keeps F (bind m k).
Proof.
  intros Hm Hk w. rewrite exec_bind.
  destruct (outcome m w) as [a|e]; [rewrite Hk|]; apply Hm.
Qed.

Lemma keeps_when (b : bool) (m : M unit) : keeps F m -> keeps F (when b m).
Proof. destruct b; [trivial | intros _; apply keeps_ret]. Qed.

End Keeps.

(** Splits a computation into its steps, down to the updates of the
    world; each update must leave the part untouched by computation. *)
Ltac keeps_steps :=
  repeat first
    [ apply keeps_ret | apply keeps_throw | apply keeps_gets
    | apply keeps_deref | apply keeps_goog
    | apply keeps_bind; [| intros ?]
    | apply keeps_when
    | apply keeps_modify; intros ?; reflexivity
    | match goal with
      | |- keeps _ (match ?x with _ => _ end) => destruct x
      | |- keeps _ (if ?x then _ else _) => destruct x
      end ].

(** ** The properties of the field *)

Section Properties.

Context {GC : goog_color}.

(** *** The gradients *)


(** *** [setValue] *)

Lemma refreshEditor_keeps_fieldCore colour : keeps fieldCore (refreshEditor colour).
Proof. unfold refreshEditor, modifyThis. keeps_steps. Qed.

Lemma refreshEditor_keeps_eventQueue colour : keeps eventQueue (refreshEditor colour).
Proof. unfold refreshEditor, modifyThis. keeps_steps. Qed.

Lemma setValue_keeps_registry colour : keeps registry (setValue colour).
Proof.
  unfold setValue, refreshEditor, isEnabled, fire, modifyThis.
  keeps_steps.
Qed.

(** [setValue] is the refresh of the editor in the world [stored]. *)
Lemma setValue_run (colour : string) (w : World) :
  setValue colour w = refreshEditor colour (stored colour w).
Proof.
  unfold stored, changeEvents.
  destruct w as [[c0 n0 v0 [block|] hs ss bs hr sr br] [|] gr fired l nk k1 k2 k3 k4 ae pm dd];
  unfold setValue, exec, bind, gets, isEnabled, when, fire, modifyThis, modify, ret;
  cbn -[refreshEditor String.eqb];
  try destruct (String.eqb c0 colour);
  cbn -[refreshEditor]; rewrite ?app_nil_r; reflexivity.
Qed.

Lemma setValue_exec (colour : string) (w : World) :
  exec (setValue colour) w = exec (refreshEditor colour) (stored colour w).
Proof. unfold exec. rewrite setValue_run. reflexivity. Qed.

Lemma setValue_fieldCore (colour : string) (w : World) :
  fieldCore (exec (setValue colour) w) =
    (colour, name (this w), validator_ (this w),
     match sourceBlock_ (this w) with
     | Some block => Some (setColour colour colour (block_colourTertiary_ block) block)
     | None => None
     end).
Proof. rewrite setValue_exec, refreshEditor_keeps_fieldCore. reflexivity. Qed.

Lemma setValue_events_fired (w : World) (newColour : string) :
  events_fired (exec (setValue newColour) w)
    = (events_fired w ++ changeEvents w newColour)%list.
Proof.
  pose proof (refreshEditor_keeps_eventQueue newColour (stored newColour w)) as H.
  rewrite <- setValue_exec in H. unfold eventQueue in H.
  injection H as _ _ H. exact H.
Qed.

Lemma setValue_colour_ (w : World) (c : string) :
  colour_ (this (exec (setValue c) w)) = c.
Proof.
  pose proof (setValue_fieldCore c w) as H. unfold fieldCore in H. congruence.
Qed.

Lemma changeEvents_same (w : World) : changeEvents w (colour_ (this w)) = [].
Proof.
  unfold changeEvents. destruct (sourceBlock_ (this w)); [|reflexivity].
  rewrite String.eqb_refl, andb_false_r. reflexivity.
Qed.

Lemma changeEvents_length (w : World) (newColour : string) :
  (length (changeEvents w newColour) <= 1)%nat.
Proof.
  unfold changeEvents. destruct (sourceBlock_ (this w)); [|cbn; lia].
  destruct (events_enabled w && _); cbn; lia.
Qed.

Lemma changeEvents_due (w : World) (newColour : string) :
  changeEvents w newColour <> [] <->
  sourceBlock_ (this w) <> None /\ events_enabled w = true
  /\ colour_ (this w) <> newColour.
Proof.
  unfold changeEvents.
  destruct (sourceBlock_ (this w)) as [block|]; [|intuition congruence].
  destruct (events_enabled w); cbn; [|intuition congruence].
  destruct (String.eqb_spec (colour_ (this w)) newColour); cbn;
    intuition congruence.
Qed.

(** C4.  [setValue(newColour)] appends to the event queue the events of
    [changeEvents] and no other: one change event that carries the id of
    the source block, the element kind ['field'], the field name, the old
    and the new colour, precisely when the field has a source block,
    events are enabled and the new colour differs from the stored one; no
    event otherwise.  Hence two calls with the same colour emit at most
    one event. *)
Theorem setValue_change_event (w : World) (newColour : string) :
  events_fired (exec (setValue newColour) w)
    = (events_fired w ++ changeEvents w newColour)%list
  /\ (length (changeEvents w newColour) <= 1)%nat
  /\ (changeEvents w newColour <> [] <->
      sourceBlock_ (this w) <> None /\ events_enabled w = true
      /\ colour_ (this w) <> newColour)
  /\ (length (events_fired (exec (setValue newColour) (exec (setValue newColour) w)))
      <= S (length (events_fired w)))%nat.
Proof.
  split; [apply setValue_events_fired|]. split; [apply changeEvents_length|].
  split; [apply changeEvents_due|].
  rewrite (setValue_events_fired (exec (setValue newColour) w)).
  rewrite (setValue_events_fired w).
  pose proof (changeEvents_same (exec (setValue newColour) w)) as Hs.
  rewrite setValue_colour_ in Hs. rewrite Hs, app_nil_r, length_app.
  pose proof (changeEvents_length w newColour). lia.
Qed.

(** C5.  For every string [c], well formed or not, and whether the refresh
    of an open editor throws or not, [getValue()] after [setValue(c)]
    returns [c]. *)
Theorem setValue_then_getValue (w : World) (c : string) :
  outcome getValue (exec (setValue c) w) = Normal c.
Proof.
  unfold outcome, getValue, gets. cbn. f_equal. apply setValue_colour_.
Qed.

(** What [setValue] leaves in the three colour slots of the source block:
    the colour in the first two, and in the third what it held before. *)
Lemma setValue_block_colours (w : World) (colour : string) (block : Block) :
  sourceBlock_ (this w) = Some block ->
  sourceBlock_ (this (exec (setValue colour) w))
    = Some (setColour colour colour (block_colourTertiary_ block) block).
Proof.
  intros Hb. pose proof (setValue_fieldCore colour w) as H.
  unfold fieldCore in H. rewrite Hb in H. congruence.
Qed.

(** C10.  [init(block)] adds no event to the queue that the initialiser of
    the base class leaves, with events enabled or not: the colour it
    passes to [setValue] is the stored one.  The initialiser of the base
    class adds none either. *)
Theorem init_no_event (w : World) (block : Block) :
  events_fired (exec (init block) w) = events_fired (exec (Field_init block) w)
  /\ events_fired (exec (init block) w) = events_fired w.
Proof.
  assert (H : events_fired (exec (init block) w)
              = events_fired (exec (Field_init block) w)).
  { unfold init. rewrite exec_bind.
    change (outcome (Field_init block) w) with (Normal (A:=unit) tt).
    cbv beta iota. set (w1 := exec (Field_init block) w).
    rewrite exec_bind.
    change (outcome getValue w1) with (Normal (colour_ (this w1))).
    change (exec getValue w1) with w1. cbv beta iota.
    rewrite setValue_events_fired, changeEvents_same, app_nil_r. reflexivity. }
  split; [exact H | rewrite H; reflexivity].
Qed.

(** *** The change handlers of the sliders *)

Lemma sliderChange_candidate (w : World) (ch : Channel) (x : Q) (hsv0 : hsv)
    (c : string) :
  hexToHsv (colour_ (this w)) = Some hsv0 ->
  candidate ch x hsv0 = Some c ->
  sliderChange ch x w = validateAndSet c w.
Proof.
  intros Hh Hc.
  destruct ch; cbn in Hc;
    unfold sliderChange, hueChange, saturationChange, brightnessChange,
      bind, getValue, gets; rewrite Hh; cbn; rewrite Hc; reflexivity.
Qed.

(** A handler that gets no candidate from [goog.color] throws and leaves
    the world as it is. *)
Lemma sliderChange_no_candidate (w : World) (ch : Channel) (x : Q) :
  match hexToHsv (colour_ (this w)) with
  | Some hsv0 => candidate ch x hsv0 = None
  | None => True
  end ->
  sliderChange ch x w = (Throw ColorError, w).
Proof.
  destruct (hexToHsv (colour_ (this w))) as [hsv0|] eqn:Hh; intros Hc;
    destruct ch; cbn in Hc;
    unfold sliderChange, hueChange, saturationChange, brightnessChange,
      bind, getValue, gets; rewrite Hh; cbn; rewrite ?Hc; reflexivity.
Qed.

(** Without a source block the handlers do not call the validator. *)
Lemma validateAndSet_without_block (w : World) (c : string) :
  sourceBlock_ (this w) = None -> validateAndSet c w = setValue c w.
Proof.
  intros Hb. unfold validateAndSet, bind, gets. rewrite Hb. reflexivity.
Qed.

Lemma sliderChange_without_block (w : World) (ch : Channel) (x : Q) (hsv0 : hsv)
    (c : string) :
  sourceBlock_ (this w) = None ->
  hexToHsv (colour_ (this w)) = Some hsv0 ->
  candidate ch x hsv0 = Some c ->
  sliderChange ch x w = setValue c w.
Proof.
  intros Hb Hh Hc. rewrite (sliderChange_candidate w ch x hsv0 c Hh Hc).
  apply validateAndSet_without_block, Hb.
Qed.

(** C1.  A change event of a slider of a field that has a source block
    passes the candidate colour through the validator: without a
    validator, or when the validator returns [undefined], the handler is
    [setValue] of the candidate; when it returns a colour, the handler is
    [setValue] of that colour; when it returns [null], the handler leaves
    the world, and so the stored colour, as it is. *)
Theorem slider_change_validated (w : World) (ch : Channel) (x : Q)
    (block : Block) (hsv0 : hsv) (c : string) :
  sourceBlock_ (this w) = Some block ->
  hexToHsv (colour_ (this w)) = Some hsv0 ->
  candidate ch x hsv0 = Some c ->
  sliderChange ch x w =
    match validator_ (this w) with
    | None => setValue c w
    | Some validate =>
        match validate c with
        | Undefined => setValue c w
        | Colour c' => setValue c' w
        | Null => (Normal tt, w)
        end
    end.
Proof.
  intros Hb Hh Hc. rewrite (sliderChange_candidate w ch x hsv0 c Hh Hc).
  unfold validateAndSet, callValidator, bind, gets. rewrite Hb.
  destruct (validator_ (this w)) as [validate|]; [|reflexivity].
  destruct (validate c); reflexivity.
Qed.

(** C3.  With a validator that returns [null] for every colour, a change
    event of any slider of a field that has a source block leaves the
    stored colour as it is: [getValue()] returns after the handler what it
    returned before. *)
Theorem reject_keeps_colour (w : World) (ch : Channel) (x : Q) (block : Block)
    (validate : string -> validated) :
  sourceBlock_ (this w) = Some block ->
  validator_ (this w) = Some validate ->
  (forall c, validate c = Null) ->
  outcome getValue (exec (sliderChange ch x) w) = outcome getValue w.
Proof.
  intros Hb Hv Hnull.
  assert (Hw : exec (sliderChange ch x) w = w); [|rewrite Hw; reflexivity].
  unfold exec.
  destruct (hexToHsv (colour_ (this w))) as [hsv0|] eqn:Hh.
  - destruct (candidate ch x hsv0) as [c|] eqn:Hc.
    + rewrite (sliderChange_candidate w ch x hsv0 c Hh Hc).
      unfold validateAndSet, callValidator, bind, gets.
      rewrite Hb, Hv, Hnull. reflexivity.
    + rewrite sliderChange_no_candidate; [reflexivity | rewrite Hh; exact Hc].
  - rewrite sliderChange_no_candidate; [reflexivity | rewrite Hh; exact I].
Qed.

(** *** [getText] *)

Lemma isHexDigit_dot (c : ascii) : isHexDigit c = true -> dot c = true.
Proof.
  destruct c as [[] [] [] [] [] [] [] []]; vm_compute; congruence.
Qed.

Lemma match_rgb_Some (s : string) (r g b : ascii) :
  match_rgb s = Some (r, g, b) <->
  dot r = true /\ dot g = true /\ dot b = true /\ s = rrggbb r g b.
Proof.
  unfold rrggbb. split.
  - destruct s as [|h [|r0 [|r1 [|g0 [|g1 [|b0 [|b1 [|? ?]]]]]]]]; try discriminate.
    cbn. destruct (_ && _) eqn:E; [|discriminate].
    intros [= <- <- <-].
    repeat (apply andb_prop in E; destruct E as [E ?]).
    repeat match goal with
           | H : Ascii.eqb _ _ = true |- _ => apply Ascii.eqb_eq in H; subst
           end.
    auto.
  - intros (Hr & Hg & Hb & ->). cbn.
    rewrite Hr, Hg, Hb, !Ascii.eqb_refl. reflexivity.
Qed.

(** C6.  A stored [#rrggbb] with equal hexadecimal digits in each pair is
    shown as [#rgb].  The same holds for any three pairs of equal
    characters other than line terminators, hexadecimal or not; and every
    stored value that is not of this form is shown unchanged. *)
Theorem getText_compacts (w : World) :
  (forall r g b, isHexDigit r = true -> isHexDigit g = true -> isHexDigit b = true ->
     colour_ (this w) = rrggbb r g b -> outcome getText w = Normal (rgb r g b))
  /\ (forall r g b, dot r = true -> dot g = true -> dot b = true ->
     colour_ (this w) = rrggbb r g b -> outcome getText w = Normal (rgb r g b))
  /\ ((forall r g b, dot r = true -> dot g = true -> dot b = true ->
       colour_ (this w) <> rrggbb r g b) ->
      outcome getText w = Normal (colour_ (this w))).
Proof.
  assert (Hdot : forall r g b, dot r = true -> dot g = true -> dot b = true ->
     colour_ (this w) = rrggbb r g b -> outcome getText w = Normal (rgb r g b)).
  { intros r g b Hr Hg Hb Hc.
    unfold outcome, getText, bind, gets. cbn [fst].
    replace (match_rgb (colour_ (this w))) with (Some (r, g, b)); [reflexivity|].
    symmetry. apply match_rgb_Some. auto. }
  split; [|split].
  - intros r g b Hr Hg Hb. apply Hdot; apply isHexDigit_dot; assumption.
  - exact Hdot.
  - intros Hno. unfold outcome, getText, bind, gets. cbn [fst].
    destruct (match_rgb (colour_ (this w))) as [[[r g] b]|] eqn:E; [|reflexivity].
    apply match_rgb_Some in E. destruct E as (Hr & Hg & Hb & Hc).
    destruct (Hno r g b Hr Hg Hb Hc).
Qed.

(** *** The refresh of the editor *)

(** Runs the refresh of the editor step by step, by cases on each call
    that may throw. *)
Ltac run_refreshEditor :=
  unfold refreshEditor, exec, outcome, bind, gets, modifyThis, modify, ret;
  repeat (cbn -[makeHueGradient floorToFixed0 hexToHsv goog deref];
    match goal with
    | |- context [goog (makeHueGradient ?c ?t)] =>
        destruct (makeHueGradient c t) eqn:?; cbn [goog ret throw]
    | |- context [goog (hexToHsv ?c)] =>
        destruct (hexToHsv c) eqn:?; cbn [goog ret throw]
    | |- context [deref ?x] => destruct x; cbn [deref ret throw]
    | |- context [match ?x with Some _ => _ | None => _ end] => destruct x
    end).

Lemma refreshEditor_sliderConfigs (colour : string) (w : World) :
  sliderConfigs (exec (refreshEditor colour) w) = sliderConfigs w.
Proof.
  destruct w as [[c0 n0 v0 sb hs ss bs hr sr br] en gr fired l nk k1 k2 k3 k4 ae pm dd].
  run_refreshEditor; reflexivity.
Qed.

Lemma refreshEditor_readouts (colour : string) (w : World) (hsv0 : hsv) :
  hueSlider_ (this w) <> None ->
  outcome (refreshEditor colour) w = Normal tt ->
  hexToHsv colour = Some hsv0 ->
  let f := this (exec (refreshEditor colour) w) in
  (shown (hueReadout_ f), shown (saturationReadout_ f), shown (brightnessReadout_ f))
    = (Some (readouts hsv0).1.1, Some (readouts hsv0).1.2, Some (readouts hsv0).2).
Proof.
  destruct w as [[c0 n0 v0 sb hs ss bs hr sr br] en gr fired l nk k1 k2 k3 k4 ae pm dd].
  cbn [this hueSlider_]. intros Hopen Hnormal Hhsv. revert Hnormal.
  run_refreshEditor; try discriminate; try congruence.
  intros _. unfold readouts. cbn. congruence.
Qed.

(** C2.  When [setValue] runs with the editor open and completes, the
    brightness readout shows the integer part of the brightness of the
    colour times 100 / 255.  (The brightness that [goog.color.hexToHsv]
    returns is the largest of the three channels, an integer [v] from 0 to
    255: [100 * v] is exact in double arithmetic, and the rounded quotient
    by 255 has the integer part of the exact one, which is an integer or
    at least 1/255 away from one.) *)
Theorem brightness_readout (w : World) (colour : string) (hsv0 : hsv) :
  hueSlider_ (this w) <> None ->
  outcome (setValue colour) w = Normal tt ->
  hexToHsv colour = Some hsv0 ->
  shown (brightnessReadout_ (this (exec (setValue colour) w)))
    = Some (floorToFixed0 (100 * hsv_2 hsv0 / 255)).
Proof.
  unfold exec, outcome. rewrite setValue_run. intros Hopen Hnormal Hhsv.
  pose proof (refreshEditor_readouts colour (stored colour w) hsv0 Hopen Hnormal Hhsv) as H.
  cbv zeta in H. unfold readouts in H. cbn [fst snd] in H.
  unfold exec in H. congruence.
Qed.

(** *** The editor and its listeners *)

(** Runs [showEditor_] step by step, by cases on each call that may
    throw; the world is kept in normal form on the way. *)
Ltac world_cbv :=
  cbv beta iota zeta delta
    [this events_enabled events_group events_fired listeners nextKey
     hueChangeEventKey_ saturationChangeEventKey_ brightnessChangeEventKey_
     eyedropperEventData_ activateEyedropper pathToMedia dropDownDiv
     set_this set_events_group set_events_fired set_listeners
     set_changeEventKey_ set_eyedropperEventData_ set_dropDownDiv
     colour_ name validator_ sourceBlock_ hueSlider_ saturationSlider_
     brightnessSlider_ hueReadout_ saturationReadout_ brightnessReadout_
     set_colour_ set_sourceBlock_ set_hueSlider_ set_saturationSlider_
     set_brightnessSlider_ set_hueReadout_ set_saturationReadout_
     set_brightnessReadout_
     unitIncrement step minimum maximum value rendered background
     new_Slider setUnitIncrement setStep setMinimum setMaximum render
     animatedSetValue setBackground
     dd_content dd_colour dd_category dd_visible hideWithoutAnimation
     clearContent DropDownDiv_setColour setCategory showPositionedByBlock
     getCategory block_category_ block_parentBlock_
     bind ret throw gets modify modifyThis modifyDropDownDiv exec outcome
     goog deref appendChild listen bindEventWithChecks_ getValue
     createLabelDom_ app];
  cbn [fst snd].

Ltac run_showEditor :=
  unfold showEditor_; world_cbv;
  repeat (match goal with
          | H : hexToHsv ?c = _ |- context [hexToHsv ?c] => rewrite H
          | |- context [match hexToHsv ?c with _ => _ end] =>
              destruct (hexToHsv c) eqn:?
          | |- context [match ?x with Some _ => _ | None => _ end] =>
              is_var x; destruct x
          end; world_cbv).

Lemma setValue_registry (colour : string) (w : World) :
  registry (setValue colour w).2 = registry w.
Proof. apply setValue_keeps_registry. Qed.

Lemma showEditor_registry (w : World) :
  registry (exec showEditor_ w) = registryOpened w.
Proof.
  unfold registryOpened.
  destruct w as [[c0 n0 v0 [[bid bcat bc1 bc2 bc3 bpar]|] hs ss bs hr sr br]
                   en gr fired l nk k1 k2 k3 k4 [|] pm [ddc ddcol ddcat ddv]].
  all: run_showEditor.
  all: rewrite ?setValue_registry; unfold registry; world_cbv.
  all: reflexivity.
Qed.

Lemma widgetDispose_listeners (w : World) :
  listeners (exec widgetDispose_ w) =
    unregister (eyedropperEventData_ w)
      (unregister (brightnessChangeEventKey_ w)
         (unregister (saturationChangeEventKey_ w)
            (unregister (hueChangeEventKey_ w) (listeners w)))).
Proof.
  destruct w as [f en gr fired l nk [k1|] [k2|] [k3|] [k4|] ae pm dd]; reflexivity.
Qed.

Lemma unregister_empty (key : option nat) : unregister key ∅ = ∅.
Proof. destruct key; [apply delete_empty | reflexivity]. Qed.

(** C8.  From a world without listeners, [showEditor_] that gets past its
    first colour conversion registers three listeners, or four with an
    eyedropper hook installed, and [widgetDispose_] after [showEditor_]
    leaves no listener registered, however [showEditor_] completed. *)
Theorem open_close_no_listeners (w : World) :
  listeners w = ∅ ->
  (hexToHsv (colour_ (this w)) <> None ->
   size (listeners (exec showEditor_ w)) = if activateEyedropper w then 4 else 3)
  /\ listeners (exec widgetDispose_ (exec showEditor_ w)) = ∅.
Proof.
  intros Hl. rewrite widgetDispose_listeners.
  pose proof (showEditor_registry w) as H.
  unfold registry, registryOpened in H. rewrite Hl in H.
  destruct (hexToHsv (colour_ (this w))) as [hsv0|].
  - destruct (activateEyedropper w); injection H as -> _ -> -> -> -> _.
    + split.
      * intros _. rewrite !map_size_insert_None, map_size_empty;
          rewrite ?lookup_insert_ne by lia;
          first [reflexivity | apply lookup_empty].
      * unfold unregister.
        repeat (rewrite ?delete_insert_ne by lia;
                rewrite ?delete_insert_eq, ?delete_empty).
        reflexivity.
    + split.
      * intros _. rewrite !map_size_insert_None, map_size_empty;
          rewrite ?lookup_insert_ne by lia;
          first [reflexivity | apply lookup_empty].
      * destruct (eyedropperEventData_ w); unfold unregister;
          repeat (rewrite ?delete_insert_ne by lia;
                  rewrite ?delete_insert_eq, ?delete_empty);
          reflexivity.
  - split; [congruence|]. injection H as -> _ _ _ _ _ _.
    rewrite Hl, !unregister_empty. reflexivity.
Qed.

Lemma setValue_sliderConfigs (colour : string) (w : World) :
  sliderConfigs (setValue colour w).2 = sliderConfigs w.
Proof.
  rewrite setValue_run.
  change (sliderConfigs (exec (refreshEditor colour) (stored colour w)) = sliderConfigs w).
  rewrite refreshEditor_sliderConfigs. reflexivity.
Qed.

(** C9.  When [goog.color.hexToHsv] accepts the stored colour,
    [showEditor_] leaves three sliders configured as follows: the hue
    slider has unit increment 5, minimum 0 and maximum 359; the saturation
    slider has unit increment 0.01, step 0.001, minimum 0.01 and maximum
    0.99; the brightness slider has unit increment 2, minimum 5 and
    maximum 255.  The step of the hue and of the brightness slider is not
    set. *)
Theorem showEditor_sliders (w : World) :
  hexToHsv (colour_ (this w)) <> None ->
  sliderConfigs (exec showEditor_ w) =
    (Some (Some 5, None, Some 0, Some 359),
     Some (Some (1 # 100), Some (1 # 1000), Some (1 # 100), Some (99 # 100)),
     Some (Some 2, None, Some 5, Some 255))%Q.
Proof.
  destruct w as [[c0 n0 v0 [[bid bcat bc1 bc2 bc3 bpar]|] hs ss bs hr sr br]
                   en gr fired l nk k1 k2 k3 k4 [|] pm [ddc ddcol ddcat ddv]].
  all: cbn [this colour_]; intros Hh.
  all: run_showEditor; try congruence.
  all: rewrite ?setValue_sliderConfigs; reflexivity.
Qed.

(** *** Further properties of [setValue] *)

(** X1.  On a field that has a source block, [setValue] leaves the block
    with the colour in its primary and secondary slot and with the id, the
    category, the parent and the tertiary colour it had. *)
Theorem setValue_block_frame (w : World) (colour : string) (block : Block) :
  sourceBlock_ (this w) = Some block ->
  exists block',
    sourceBlock_ (this (exec (setValue colour) w)) = Some block'
    /\ block_colour_ block' = colour
    /\ block_colourSecondary_ block' = colour
    /\ block_colourTertiary_ block' = block_colourTertiary_ block
    /\ block_id block' = block_id block
    /\ block_category_ block' = block_category_ block
    /\ block_parentBlock_ block' = block_parentBlock_ block.
Proof.
  intros Hb. pose proof (setValue_fieldCore colour w) as H.
  unfold fieldCore in H. rewrite Hb in H. injection H as _ _ _ H.
  eexists. split; [exact H|]. repeat split.
Qed.


(** X3.  With the sliders of an editor at hand, [setValue] of a colour
    that [goog.color.hexToHsv] rejects throws, and throws late: the
    colour is stored and the change event fired, while no slider
    background and no readout is refreshed. *)
Theorem setValue_rejected_colour (w : World) (colour : string) :
  hueSlider_ (this w) <> None ->
  hexToHsv colour = None ->
  outcome (setValue colour) w = Throw ColorError
  /\ colour_ (this (exec (setValue colour) w)) = colour
  /\ events_fired (exec (setValue colour) w)
     = (events_fired w ++ changeEvents w colour)%list
  /\ editorState (exec (setValue colour) w) = editorState w.
Proof.
  intros Hs Hh.
  split; [|split; [apply setValue_colour_ | split; [apply setValue_events_fired|]]];
    unfold outcome, exec; rewrite setValue_run;
    unfold refreshEditor, makeHueGradient, bind, gets;
    change (hueSlider_ (this (stored colour w))) with (hueSlider_ (this w));
    destruct (hueSlider_ (this w)) as [s|]; try congruence;
    rewrite Hh; reflexivity.
Qed.

(** Runs the refresh of the editor once more, with what the first run
    has found out about the gradients. *)
Ltac rerun_refreshEditor :=
  unfold refreshEditor; world_cbv;
  repeat (match goal with
          | H : makeHueGradient ?c ?t = _ |- context [makeHueGradient ?c ?t] =>
              rewrite H
          | H : hexToHsv ?c = _ |- context [hexToHsv ?c] => rewrite H
          | |- context [match makeHueGradient ?c ?t with _ => _ end] =>
              destruct (makeHueGradient c t) eqn:?
          | |- context [match hexToHsv ?c with _ => _ end] =>
              destruct (hexToHsv c) eqn:?
          | |- context [match ?x with Some _ => _ | None => _ end] =>
              is_var x; destruct x
          end; world_cbv).

Lemma setValue_editorSettings (colour : string) (w : World) :
  editorSettings (setValue colour w).2 = editorSettings w.
Proof.
  rewrite setValue_run.
  destruct w as [[c0 n0 v0 sb hs ss bs hr sr br] en gr fired l nk k1 k2 k3 k4 ae pm dd].
  unfold stored. world_cbv. rerun_refreshEditor; reflexivity.
Qed.

Lemma setValue_dropDownDiv (colour : string) (w : World) :
  dropDownDiv (setValue colour w).2 = dropDownDiv w.
Proof.
  rewrite setValue_run.
  destruct w as [[c0 n0 v0 sb hs ss bs hr sr br] en gr fired l nk k1 k2 k3 k4 ae pm dd].
  unfold stored. world_cbv. rerun_refreshEditor; reflexivity.
Qed.

(** X4.  [setValue] changes nothing of a slider but its background: unit
    increment, step, minimum, maximum, value and rendering stay, and so do
    the listeners, the class-level slots and the panel. *)
Theorem setValue_keeps_settings (w : World) (colour : string) :
  editorSettings (exec (setValue colour) w) = editorSettings w
  /\ registry (exec (setValue colour) w) = registry w
  /\ dropDownDiv (exec (setValue colour) w) = dropDownDiv w.
Proof.
  split; [apply setValue_editorSettings|].
  split; [apply setValue_keeps_registry | apply setValue_dropDownDiv].
Qed.

Lemma stored_fixed (colour : string) (w : World) :
  colour_ (this w) = colour ->
  (forall block, sourceBlock_ (this w) = Some block ->
     block_colour_ block = colour /\ block_colourSecondary_ block = colour) ->
  stored colour w = w.
Proof.
  destruct w as [[c0 n0 v0 [[bid bcat bc1 bc2 bc3 bpar]|] hs ss bs hr sr br]
                   en gr fired l nk k1 k2 k3 k4 ae pm dd];
    cbn [this colour_ sourceBlock_]; intros <- Hb;
    unfold stored, changeEvents;
    cbn [this colour_ sourceBlock_ events_enabled events_fired];
    rewrite ?String.eqb_refl, ?andb_false_r, app_nil_r.
  - destruct (Hb _ eq_refl) as [H1 H2]. cbn in H1, H2. subst bc1 bc2. reflexivity.
  - reflexivity.
Qed.


Lemma refreshEditor_idempotent (colour : string) (w : World) :
  exec (refreshEditor colour) (exec (refreshEditor colour) w)
    = exec (refreshEditor colour) w.
Proof.
  destruct w as [[c0 n0 v0 sb hs ss bs hr sr br] en gr fired l nk k1 k2 k3 k4 ae pm dd].
  rerun_refreshEditor; reflexivity.
Qed.

(** X5.  [setValue] is idempotent: a second call with the same colour
    leaves the world of the first call as it is, whether the calls
    complete or throw. *)
Theorem setValue_idempotent (w : World) (colour : string) :
  exec (setValue colour) (exec (setValue colour) w) = exec (setValue colour) w.
Proof.
  set (w1 := exec (setValue colour) w).
  assert (Hfix : stored colour w1 = w1).
  { pose proof (setValue_fieldCore colour w) as H. fold w1 in H.
    unfold fieldCore in H. injection H as Hc _ _ Hb.
    apply stored_fixed; [exact Hc|].
    intros block Hblock. rewrite Hblock in Hb.
    destruct (sourceBlock_ (this w)); [|discriminate].
    injection Hb as ->. split; reflexivity. }
  rewrite setValue_exec, Hfix. unfold w1.
  rewrite setValue_exec. apply refreshEditor_idempotent.
Qed.



(** *** Further properties of [getText] *)

Lemma match_rgb_length (s : string) :
  String.length s <> 7%nat -> match_rgb s = None.
Proof.
  destruct s as [|h [|r0 [|r1 [|g0 [|g1 [|b0 [|b1 [|? ?]]]]]]]]; cbn;
    try reflexivity.
  intros H. destruct (H eq_refl).
Qed.

(** X7.  A stored value whose length is not 7 is shown as it is: the empty
    string and the short form [#rgb] among others. *)
Theorem getText_other_length (w : World) :
  String.length (colour_ (this w)) <> 7%nat ->
  outcome getText w = Normal (colour_ (this w)).
Proof.
  intros H. unfold outcome, getText, bind, gets. cbn [fst].
  rewrite (match_rgb_length _ H). reflexivity.
Qed.

(** X8.  The text shown is the stored value or has four characters, and
    it is stable: a field that holds the text shown shows that text. *)
Theorem getText_stable (w : World) (text : string) :
  outcome getText w = Normal text ->
  (text = colour_ (this w) \/ String.length text = 4%nat)
  /\ outcome getText (holding text w) = Normal text.
Proof.
  unfold outcome, getText, bind, gets, holding. cbn [fst this set_this colour_ set_colour_].
  destruct (match_rgb (colour_ (this w))) as [[[r g] b]|] eqn:E; cbn.
  - intros [= <-]. split; [right; reflexivity | reflexivity].
  - intros [= <-]. split; [left; reflexivity | rewrite E; reflexivity].
Qed.

(** *** Further properties of the change handlers *)

(** X9.  On a field without source block a change event of a slider sets
    the candidate colour whatever validator is installed: the handler is
    [setValue] of the candidate. *)
Theorem slider_change_unguarded (w : World) (ch : Channel) (x : Q) (hsv0 : hsv)
    (c : string) :
  sourceBlock_ (this w) = None ->
  hexToHsv (colour_ (this w)) = Some hsv0 ->
  candidate ch x hsv0 = Some c ->
  sliderChange ch x w = setValue c w
  /\ outcome getValue (exec (sliderChange ch x) w) = Normal c.
Proof.
  intros Hb Hh Hc.
  assert (H : sliderChange ch x w = setValue c w).
  { rewrite (sliderChange_candidate w ch x hsv0 c Hh Hc).
    unfold validateAndSet, bind, gets. rewrite Hb. reflexivity. }
  split; [exact H|]. unfold exec. rewrite H.
  unfold outcome, getValue, gets. cbn. f_equal. apply setValue_colour_.
Qed.

(** X10.  A change event of a slider of a field whose stored colour
    [goog.color.hexToHsv] rejects, or whose candidate [goog.color.hsvToHex]
    rejects, throws before anything is changed: the world stays as it
    is. *)
Theorem slider_change_rejected (w : World) (ch : Channel) (x : Q) :
  (hexToHsv (colour_ (this w)) = None
   \/ exists hsv0, hexToHsv (colour_ (this w)) = Some hsv0
                   /\ candidate ch x hsv0 = None) ->
  sliderChange ch x w = (Throw ColorError, w).
Proof.
  intros [Hh | (hsv0 & Hh & Hc)];
    destruct ch; cbn in *;
    unfold sliderChange, hueChange, saturationChange, brightnessChange,
      bind, getValue, gets; rewrite Hh; cbn; rewrite ?Hc; reflexivity.
Qed.

Lemma sliderChange_keeps {T} (F : World -> T) (ch : Channel) (x : Q) :
  (forall c, keeps F (setValue c)) -> keeps F (sliderChange ch x).
Proof.
  intros Hset.
  destruct ch;
    unfold sliderChange, hueChange, saturationChange, brightnessChange,
      validateAndSet, callValidator, getValue;
    repeat first
      [ apply Hset | apply keeps_ret | apply keeps_throw | apply keeps_gets
      | apply keeps_goog | apply keeps_bind; [| intros ?]
      | match goal with
        | |- keeps _ (match ?x with _ => _ end) => destruct x
        end ].
Qed.

(** X11.  No change of colour touches the listeners: a change event of a
    slider and a pick of the eyedropper leave the registered listeners,
    the class-level slots, the settings of the sliders and the panel as
    they are. *)
Theorem handlers_keep_registry (w : World) :
  (forall ch x,
     registry (exec (sliderChange ch x) w) = registry w
     /\ editorSettings (exec (sliderChange ch x) w) = editorSettings w
     /\ dropDownDiv (exec (sliderChange ch x) w) = dropDownDiv w)
  /\ (forall value,
     registry (exec (eyedropperCallback value) w) = registry w
     /\ editorSettings (exec (eyedropperCallback value) w) = editorSettings w
     /\ dropDownDiv (exec (eyedropperCallback value) w) = dropDownDiv w).
Proof.
  split.
  - intros ch x. repeat split.
    + apply (sliderChange_keeps registry). apply setValue_keeps_registry.
    + apply (sliderChange_keeps editorSettings). intros c w'.
      apply setValue_editorSettings.
    + apply (sliderChange_keeps dropDownDiv). intros c w'.
      apply setValue_dropDownDiv.
  - intros value. unfold eyedropperCallback. repeat split.
    + apply setValue_keeps_registry.
    + apply setValue_editorSettings.
    + apply setValue_dropDownDiv.
Qed.

(** *** Further properties of [showEditor_] *)




(** X13.  On a field whose stored colour [goog.color.hexToHsv] rejects,
    [showEditor_] throws before it registers a listener: the registry
    and the sliders of the field stay as they are, and the panel is left
    hidden with the hue label and the hue slider in it. *)
Theorem showEditor_rejected_colour (w : World) :
  hexToHsv (colour_ (this w)) = None ->
  outcome showEditor_ w = Throw ColorError
  /\ registry (exec showEditor_ w) = registry w
  /\ sliders (exec showEditor_ w) = sliders w
  /\ dd_visible (dropDownDiv (exec showEditor_ w)) = false
  /\ dd_content (dropDownDiv (exec showEditor_ w))
     = [LabelContainer "Hue"; SliderNode Hue].
Proof.
  destruct w as [[c0 n0 v0 sb hs ss bs hr sr br]
                   en gr fired l nk k1 k2 k3 k4 ae pm [ddc ddcol ddcat ddv]].
  cbn [this colour_]. intros Hh.
  repeat split; run_showEditor; reflexivity.
Qed.

(** X14.  On a field without source block, or whose source block has no
    parent, and whose stored colour [goog.color.hexToHsv] accepts,
    [showEditor_] throws a [TypeError] late: the field has its three
    sliders by then, and the panel is left hidden. *)
Theorem showEditor_without_parent (w : World) :
  hexToHsv (colour_ (this w)) <> None ->
  match sourceBlock_ (this w) with
  | Some block => block_parentBlock_ block = None
  | None => True
  end ->
  let w' := exec showEditor_ w in
  outcome showEditor_ w = Throw TypeError
  /\ hueSlider_ (this w') <> None
  /\ saturationSlider_ (this w') <> None
  /\ brightnessSlider_ (this w') <> None
  /\ dd_visible (dropDownDiv w') = false.
Proof.
  destruct w as [[c0 n0 v0 [[bid bcat bc1 bc2 bc3 bpar]|] hs ss bs hr sr br]
                   en gr fired l nk k1 k2 k3 k4 [|] pm [ddc ddcol ddcat ddv]].
  all: cbn [this colour_ sourceBlock_ block_parentBlock_]; intros Hh Hp; subst.
  all: cbv zeta.
  all: repeat split; run_showEditor; try congruence; try reflexivity.
Qed.

(** X15.  Once [showEditor_] is past its first colour conversion, each of
    the three class-level slots of the sliders holds the key of a
    registered listener of its channel, and with an eyedropper hook
    installed the fourth holds the key of the listener of the button;
    this also when [showEditor_] throws later. *)
Theorem showEditor_listeners_live (w : World) :
  hexToHsv (colour_ (this w)) <> None ->
  let w' := exec showEditor_ w in
  live w' (hueChangeEventKey_ w') (SliderChange Hue)
  /\ live w' (saturationChangeEventKey_ w') (SliderChange Saturation)
  /\ live w' (brightnessChangeEventKey_ w') (SliderChange Brightness)
  /\ (activateEyedropper w = true ->
      live w' (eyedropperEventData_ w') EyedropperMouseDown).
Proof.
  intros Hh. cbv zeta. pose proof (showEditor_registry w) as H.
  unfold registry, registryOpened in H.
  destruct (hexToHsv (colour_ (this w))) as [hsv0|]; [|congruence].
  unfold live.
  destruct (activateEyedropper w); injection H as -> _ -> -> -> -> _.
  all: repeat split; try discriminate; try intros _.
  all: eexists; (split; [reflexivity|]).
  all: rewrite ?lookup_insert_ne by lia; apply lookup_insert_eq.
Qed.


(** X17.  When [showEditor_] completes, the panel is shown with the fixed
    colours, tagged with the category of the parent of the source block,
    and holds, whatever it held before, a label and a slider per channel
    followed by the button of the eyedropper when a hook is installed. *)
Theorem showEditor_panel (w : World) :
  outcome showEditor_ w = Normal tt ->
  exists block parent,
    sourceBlock_ (this w) = Some block
    /\ block_parentBlock_ block = Some parent
    /\ dropDownDiv (exec showEditor_ w) =
         {| dd_content := panelContent w;
            dd_colour := Some ("#ffffff", "#dddddd");
            dd_category := block_category_ parent;
            dd_visible := true |}.
Proof.
  set (panel := dropDownDiv).
  assert (Hpanel : forall c u, panel (setValue c u).2 = panel u)
    by (intros; apply setValue_dropDownDiv).
  destruct w as [[c0 n0 v0 [[bid bcat bc1 bc2 bc3 bpar]|] hs ss bs hr sr br]
                   en gr fired l nk k1 k2 k3 k4 [|] pm [ddc ddcol ddcat ddv]].
  all: run_showEditor; try discriminate.
  all: intros _; do 2 eexists.
  all: (split; [reflexivity|]); (split; [reflexivity|]).
  all: rewrite Hpanel; reflexivity.
Qed.

(** *** Further properties of [widgetDispose_] and of sessions *)

Lemma unregister_subseteq (key : option nat) (l : gmap nat Handler) :
  unregister key l ⊆ l.
Proof. destruct key; [apply delete_subseteq | reflexivity]. Qed.

Lemma lookup_unregister (key : option nat) (l : gmap nat Handler) (k : nat) :
  unregister key l !! k = if decide (key = Some k) then None else l !! k.
Proof.
  destruct key as [k'|]; cbn.
  - rewrite lookup_delete. repeat case_decide; congruence.
  - case_decide; [discriminate | reflexivity].
Qed.

Lemma widgetDispose_exec (w : World) :
  widgetDispose_ w =
    (Normal tt,
     set_events_group None
       (set_listeners
          (unregister (eyedropperEventData_ w)
             (unregister (brightnessChangeEventKey_ w)
                (unregister (saturationChangeEventKey_ w)
                   (unregister (hueChangeEventKey_ w) (listeners w)))))
          (nextKey w) w)).
Proof.
  destruct w as [f en gr fired l nk [k1|] [k2|] [k3|] [k4|] ae pm dd]; reflexivity.
Qed.

(** X18.  [widgetDispose_] always completes.  It removes the listeners
    that the four class-level slots stand for and no other, leaves the
    slots as they are, clears the event group and does not touch the
    field. *)
Theorem widgetDispose_removes_slots (w : World) (k : nat) :
  let w' := exec widgetDispose_ w in
  outcome widgetDispose_ w = Normal tt
  /\ (In (Some k) (slots w) -> listeners w' !! k = None)
  /\ (~ In (Some k) (slots w) -> listeners w' !! k = listeners w !! k)
  /\ slots w' = slots w
  /\ events_group w' = None
  /\ this w' = this w.
Proof.
  cbv zeta. unfold outcome, exec. rewrite widgetDispose_exec.
  cbn [fst snd]. split; [reflexivity|].
  split; [|split; [|repeat split]].
  - cbn. rewrite !lookup_unregister. unfold slots. cbn.
    intros H. repeat case_decide; try reflexivity. intuition congruence.
  - cbn. rewrite !lookup_unregister. unfold slots. cbn.
    intros H. repeat case_decide; try reflexivity; exfalso; apply H; auto.
Qed.

(** X19.  [widgetDispose_] is idempotent: the slots keep their keys, and
    a second call finds nothing left to remove. *)
Theorem widgetDispose_idempotent (w : World) :
  exec widgetDispose_ (exec widgetDispose_ w) = exec widgetDispose_ w.
Proof.
  unfold exec. rewrite !widgetDispose_exec. cbn [snd].
  destruct w as [f en gr fired l nk k1 k2 k3 k4 ae pm dd]. world_cbv.
  f_equal. apply map_eq. intros i. rewrite !lookup_unregister.
  repeat case_decide; reflexivity.
Qed.

Lemma open_close_listeners (w : World) :
  exists removed : list (option nat),
    listeners (exec widgetDispose_ (exec showEditor_ w))
      = foldr unregister (listeners w) removed
    /\ forall k, In (Some k) removed -> In (Some k) (slots w) \/ nextKey w <= k.
Proof.
  rewrite widgetDispose_listeners.
  pose proof (showEditor_registry w) as H.
  unfold registry, registryOpened in H.
  destruct (hexToHsv (colour_ (this w))) as [hsv0|].
  - destruct (activateEyedropper w); injection H as -> _ -> -> -> -> _.
    + exists [Some (nextKey w); Some (S (nextKey w)); Some (S (S (nextKey w)));
              Some (S (S (S (nextKey w))))].
      split.
      * apply map_eq. intros i. cbn [foldr].
        rewrite !lookup_unregister, !lookup_insert.
        repeat case_decide; simplify_eq; try reflexivity; lia.
      * cbn. intros k Hk. right.
        repeat (destruct Hk as [[= <-]|Hk]; [lia|]). destruct Hk.
    + exists [Some (nextKey w); Some (S (nextKey w)); Some (S (S (nextKey w)));
              eyedropperEventData_ w].
      split.
      * apply map_eq. intros i. cbn [foldr].
        rewrite !lookup_unregister, !lookup_insert.
        repeat case_decide; simplify_eq; try reflexivity; try lia; congruence.
      * cbn. unfold slots. cbn. intros k Hk.
        repeat (destruct Hk as [[= <-]|Hk]; [right; lia|]).
        destruct Hk as [Hk|[]]. left. auto.
  - injection H as -> _ -> -> -> -> _.
    exists [eyedropperEventData_ w; brightnessChangeEventKey_ w;
            saturationChangeEventKey_ w; hueChangeEventKey_ w].
    split; [reflexivity|]. unfold slots. cbn. intros k Hk. left. tauto.
Qed.

Lemma foldr_unregister_subseteq (removed : list (option nat)) (l : gmap nat Handler) :
  foldr unregister l removed ⊆ l.
Proof.
  induction removed as [|key removed IH]; cbn; [reflexivity|].
  etrans; [apply unregister_subseteq | exact IH].
Qed.

Lemma foldr_unregister_lookup (removed : list (option nat)) (l : gmap nat Handler)
    (k : nat) :
  ~ In (Some k) removed -> foldr unregister l removed !! k = l !! k.
Proof.
  induction removed as [|key removed IH]; cbn; [reflexivity|].
  intros H. rewrite lookup_unregister.
  case_decide; [exfalso; apply H; auto | apply IH; tauto].
Qed.

Lemma open_close_subseteq (w : World) :
  listeners (exec widgetDispose_ (exec showEditor_ w)) ⊆ listeners w.
Proof.
  destruct (open_close_listeners w) as (removed & -> & _).
  apply foldr_unregister_subseteq.
Qed.

(** X20.  The editor opened and then closed removes every listener it has
    registered, from any world and however [showEditor_] completed: no
    listener is registered afterwards that was not registered before.
    And it spares the others: a listener registered before under a key
    that none of the four slots held is still registered. *)
Theorem open_close_frame (w : World) :
  let w' := exec widgetDispose_ (exec showEditor_ w) in
  listeners w' ⊆ listeners w
  /\ forall k, (k < nextKey w)%nat -> ~ In (Some k) (slots w) ->
       listeners w' !! k = listeners w !! k.
Proof.
  cbv zeta. split; [apply open_close_subseteq|].
  intros k Hk Hslots.
  destruct (open_close_listeners w) as (removed & -> & Hr).
  apply foldr_unregister_lookup. intros Hin.
  destruct (Hr k Hin) as [H|H]; [exact (Hslots H) | lia].
Qed.

(** X21.  Any number of sessions, each the editor opened and then closed,
    registers no listener that outlives it: the listeners afterwards are
    among the listeners before, and from a world without listeners none
    is left. *)
Theorem sessions_no_leak (n : nat) (w : World) :
  listeners (sessions n w) ⊆ listeners w
  /\ (listeners w = ∅ -> listeners (sessions n w) = ∅).
Proof.
  assert (H : forall w', listeners (sessions n w') ⊆ listeners w').
  { induction n as [|n IH]; intros w'; cbn; [reflexivity|].
    etrans; [apply IH | apply open_close_subseteq]. }
  split; [apply H|]. intros Hl.
  specialize (H w). rewrite Hl in H.
  apply map_eq. intros i. rewrite lookup_empty.
  destruct (listeners (sessions n w) !! i) as [h|] eqn:E; [|reflexivity].
  rewrite map_subseteq_spec in H. apply H in E. rewrite lookup_empty in E.
  discriminate.
Qed.


(** *** A further property of [init] *)

(** X23.  Once the initialiser of the base class has returned, [init]
    pushes the colour the field holds to the source block it finds, into
    the primary and the secondary slot, and leaves the stored colour, the
    listeners and the class-level slots as they are. *)
Theorem init_pushes_colour (w : World) (block : Block) :
  let u := exec (Field_init block) w in
  let w' := exec (init block) w in
  colour_ (this w') = colour_ (this u)
  /\ (forall b, sourceBlock_ (this u) = Some b ->
        sourceBlock_ (this w')
          = Some (setColour (colour_ (this u)) (colour_ (this u))
                    (block_colourTertiary_ b) b))
  /\ registry w' = registry u.
Proof.
  cbv zeta.
  assert (H : exec (init block) w
              = exec (setValue (colour_ (this (exec (Field_init block) w))))
                  (exec (Field_init block) w)).
  { unfold init. rewrite exec_bind.
    change (outcome (Field_init block) w) with (Normal (A:=unit) tt).
    cbv beta iota. rewrite exec_bind. reflexivity. }
  rewrite H. split; [apply setValue_colour_|].
  split; [intros b Hb; apply setValue_block_colours, Hb|].
  apply setValue_keeps_registry.
Qed.
End Properties.


(** ** The properties at the sample worlds *)

(** The scenario of the red field: the readouts of the open editor, and
    the hue slider dragged to 120 with no validator installed. *)
Example red_readouts :
  let f := this (Sample.opened None false) in
  (shown (hueReadout_ f), shown (saturationReadout_ f), shown (brightnessReadout_ f))
    = (Some "0", Some "100", Some "100").
Proof. vm_compute. reflexivity. Qed.

Example red_to_green :
  outcome getValue (exec (dispatch 0 120) (Sample.opened None false))
    = Normal "#00ff00".
Proof. vm_compute. reflexivity. Qed.

(** [setValue] of a new colour on the installed field fires one event, and
    the same call once more fires none. *)
Example green_fires_once :
  let w := exec (setValue "#00ff00") (Sample.attached None false) in
  events_fired w =
    [ {| ev_blockId := "picker"; ev_element := "field"; ev_name := "COLOUR";
         ev_oldValue := "#ff0000"; ev_newValue := "#00ff00" |} ]
  /\ events_fired (exec (setValue "#00ff00") w) = events_fired w.
Proof. split; vm_compute; reflexivity. Qed.

(** [showEditor_] on a field without source block throws, with its three
    listeners registered. *)
Example orphan_listeners :
  outcome showEditor_ (Sample.world (Sample.red None) false) = Throw TypeError
  /\ size (listeners (Sample.orphan None)) = 3.
Proof. split; vm_compute; reflexivity. Qed.

(** C1, at the red field with the editor open and a validator that rejects
    every colour: the hue slider dragged to 120 proposes green, and the
    handler leaves the world as it is. *)
Lemma slider_change_validated_witness :
  let w := Sample.opened (Some Sample.reject) false in
  sourceBlock_ (this w) = Some Sample.picker
  /\ hexToHsv (colour_ (this w)) = Some (Hsv (0 # 255) (255 # 255) 255)
  /\ candidate Hue 120 (Hsv (0 # 255) (255 # 255) 255) = Some "#00ff00"
  /\ sliderChange Hue 120 w = (Normal tt, w).
Proof.
  intros w.
  assert (H1 : sourceBlock_ (this w) = Some Sample.picker) by (vm_compute; reflexivity).
  assert (H2 : hexToHsv (colour_ (this w)) = Some (Hsv (0 # 255) (255 # 255) 255))
    by (vm_compute; reflexivity).
  assert (H3 : candidate Hue 120 (Hsv (0 # 255) (255 # 255) 255) = Some "#00ff00")
    by (vm_compute; reflexivity).
  split; [exact H1|]. split; [exact H2|]. split; [exact H3|].
  exact (slider_change_validated w Hue 120 _ _ _ H1 H2 H3).
Defined.

(** C1 as stated fails in two places.  With a validator that rejects every
    colour, a pick of the eyedropper on a field installed on a block
    changes the stored colour from red to green; and so does the hue
    slider dragged to 120 on a field that has no source block. *)
Lemma validator_not_consulted :
  outcome getValue (Sample.opened (Some Sample.reject) true) = Normal "#ff0000"
  /\ outcome getValue
       (exec (eyedropperCallback "#00ff00") (Sample.opened (Some Sample.reject) true))
     = Normal "#00ff00"
  /\ outcome getValue (Sample.orphan (Some Sample.reject)) = Normal "#ff0000"
  /\ outcome getValue
       (exec (dispatch 0 120) (Sample.orphan (Some Sample.reject)))
     = Normal "#00ff00".
Proof. repeat split; vm_compute; reflexivity. Qed.

(** C2, at the open editor of the red field and the colour [#336699],
    whose brightness is 153: the readout shows 60. *)
Lemma brightness_readout_witness :
  let w := Sample.opened None false in
  hueSlider_ (this w) <> None
  /\ outcome (setValue "#336699") w = Normal tt
  /\ hexToHsv "#336699" = Some (Hsv (21420 # 102) (102 # 153) 153)
  /\ shown (brightnessReadout_ (this (exec (setValue "#336699") w))) = Some "60".
Proof.
  intros w.
  assert (H1 : hueSlider_ (this w) <> None) by (vm_compute; discriminate).
  assert (H2 : outcome (setValue "#336699") w = Normal tt) by (vm_compute; reflexivity).
  assert (H3 : hexToHsv "#336699" = Some (Hsv (21420 # 102) (102 # 153) 153))
    by (vm_compute; reflexivity).
  split; [exact H1|]. split; [exact H2|]. split; [exact H3|].
  exact (brightness_readout w "#336699" _ H1 H2 H3).
Defined.

(** C2 as stated fails at red, whose brightness is 255: the readout shows
    100, that is 255 * 100 / 255, where 255 * 100 / 360 would show 70. *)
Lemma brightness_readout_not_of_360 :
  let w := exec (setValue "#ff0000") (Sample.opened None false) in
  hexToHsv "#ff0000" = Some (Hsv (0 # 255) (255 # 255) 255)
  /\ shown (brightnessReadout_ (this w)) = Some "100"
  /\ floorToFixed0 (100 * 255 / 360) = "70"
  /\ shown (brightnessReadout_ (this w)) <> Some (floorToFixed0 (100 * 255 / 360)).
Proof. repeat split; vm_compute; (reflexivity || discriminate). Qed.

(** C3, at the red field with the editor open and the validator that
    rejects every colour: the saturation slider dragged to one half. *)
Lemma reject_keeps_colour_witness :
  let w := Sample.opened (Some Sample.reject) false in
  sourceBlock_ (this w) = Some Sample.picker
  /\ validator_ (this w) = Some Sample.reject
  /\ (forall c, Sample.reject c = Null)
  /\ outcome getValue (exec (sliderChange Saturation (1 # 2)) w) = outcome getValue w.
Proof.
  intros w.
  assert (H1 : sourceBlock_ (this w) = Some Sample.picker) by (vm_compute; reflexivity).
  assert (H2 : validator_ (this w) = Some Sample.reject) by (vm_compute; reflexivity).
  assert (H3 : forall c, Sample.reject c = Null) by (intros c; reflexivity).
  split; [exact H1|]. split; [exact H2|]. split; [exact H3|].
  exact (reject_keeps_colour w Saturation (1 # 2) _ _ H1 H2 H3).
Defined.

(** C3 as stated fails on a field that has no source block: with the
    validator that rejects every colour, the saturation slider dragged to
    one half changes the stored colour. *)
Lemma reject_skipped_without_block :
  let w := Sample.orphan (Some Sample.reject) in
  validator_ (this w) = Some Sample.reject
  /\ listeners w !! 1 = Some (SliderChange Saturation)
  /\ outcome getValue w = Normal "#ff0000"
  /\ outcome getValue (exec (dispatch 1 (1 # 2)) w) = Normal "#ff7f7f".
Proof. repeat split; vm_compute; reflexivity. Qed.

(** C6, at three stored values: white is compacted, the same holds for
    pairs of letters that are no hexadecimal digits, and a colour with
    unequal digits in a pair is shown as it is. *)
Lemma getText_compacts_witness :
  outcome getText (Sample.world (Sample.field "#ffffff" None) false) = Normal "#fff"
  /\ outcome getText (Sample.world (Sample.field "#gghhii" None) false) = Normal "#ghi"
  /\ outcome getText (Sample.world (Sample.field "#ff0080" None) false)
     = Normal "#ff0080".
Proof.
  split; [|split].
  - exact (proj1 (getText_compacts (Sample.world (Sample.field "#ffffff" None) false))
             "f" "f" "f" eq_refl eq_refl eq_refl eq_refl)%char.
  - exact (proj1 (proj2 (getText_compacts
             (Sample.world (Sample.field "#gghhii" None) false)))
             "g" "h" "i" eq_refl eq_refl eq_refl eq_refl)%char.
  - apply (proj2 (proj2 (getText_compacts
             (Sample.world (Sample.field "#ff0080" None) false)))).
    intros r g b _ _ _. unfold rrggbb. simpl. intros H.
    injection H as _ _ _ _ H8 H0. rewrite <- H8 in H0. discriminate H0.
Defined.

(** C6 as stated fails at [#gghhii]: the pairs are no hexadecimal digits,
    so the value is not among the colours to compact, and yet the text
    shown is [#ghi], not the stored value. *)
Lemma getText_compacts_non_hex :
  let w := Sample.world (Sample.field "#gghhii" None) false in
  isHexDigit "g" = false
  /\ outcome getText w = Normal "#ghi"
  /\ outcome getText w <> Normal (colour_ (this w)).
Proof. repeat split; vm_compute; (reflexivity || discriminate). Qed.

(** C7 at the red field installed on a block whose tertiary colour is
    black: [setValue] of green leaves green in the primary and in the
    secondary slot, and black in the tertiary slot. *)
Theorem setValue_tertiary_kept :
  let w := Sample.attached None false in
  let w' := exec (setValue "#00ff00") w in
  block_colourTertiary_ <$> sourceBlock_ (this w) = Some "#000000"
  /\ block_colour_ <$> sourceBlock_ (this w') = Some "#00ff00"
  /\ block_colourSecondary_ <$> sourceBlock_ (this w') = Some "#00ff00"
  /\ block_colourTertiary_ <$> sourceBlock_ (this w') = Some "#000000".
Proof. repeat split; vm_compute; reflexivity. Qed.

(** C8, at the red field installed on a block, with an eyedropper hook:
    the editor registers four listeners and its disposal leaves none. *)
Lemma open_close_no_listeners_witness :
  let w := Sample.attached None true in
  listeners w = ∅
  /\ size (listeners (exec showEditor_ w)) = 4
  /\ listeners (exec widgetDispose_ (exec showEditor_ w)) = ∅.
Proof.
  intros w.
  assert (H1 : listeners w = ∅) by (vm_compute; reflexivity).
  assert (H2 : hexToHsv (colour_ (this w)) <> None) by (vm_compute; discriminate).
  split; [exact H1|]. split.
  - exact (proj1 (open_close_no_listeners w H1) H2).
  - exact (proj2 (open_close_no_listeners w H1)).
Defined.

(** C9, at the red field installed on a block. *)
Lemma showEditor_sliders_witness :
  let w := Sample.attached None false in
  hexToHsv (colour_ (this w)) <> None
  /\ sliderConfigs (exec showEditor_ w) =
       (Some (Some 5, None, Some 0, Some 359),
        Some (Some (1 # 100), Some (1 # 1000), Some (1 # 100), Some (99 # 100)),
        Some (Some 2, None, Some 5, Some 255))%Q.
Proof.
  intros w.
  assert (H1 : hexToHsv (colour_ (this w)) <> None) by (vm_compute; discriminate).
  split; [exact H1|]. exact (showEditor_sliders w H1).
Defined.

(** C9 as stated fails whichever parameter of the slider is read as its
    step: the step of the hue and of the brightness slider is not set, so
    it is neither 5 nor 2; and the unit increment of the saturation slider
    is 0.01, not 0.001. *)
Lemma slider_steps_differ :
  let f := this (Sample.opened None false) in
  step <$> hueSlider_ f = Some None
  /\ step <$> brightnessSlider_ f = Some None
  /\ unitIncrement <$> saturationSlider_ f = Some (Some (1 # 100)%Q)
  /\ ~ (1 # 100 == 1 # 1000)%Q.
Proof. repeat split; vm_compute; (reflexivity || discriminate). Qed.

(** ** The further properties at the sample worlds *)

(** X1, at the red field installed on [picker]. *)
Lemma setValue_block_frame_witness :
  let w := Sample.attached None false in
  sourceBlock_ (this w) = Some Sample.picker
  /\ exists block',
       sourceBlock_ (this (exec (setValue "#00ff00") w)) = Some block'
       /\ block_colour_ block' = "#00ff00"
       /\ block_colourSecondary_ block' = "#00ff00"
       /\ block_colourTertiary_ block' = block_colourTertiary_ Sample.picker
       /\ block_id block' = block_id Sample.picker
       /\ block_category_ block' = block_category_ Sample.picker
       /\ block_parentBlock_ block' = block_parentBlock_ Sample.picker.
Proof.
  intros w.
  assert (H1 : sourceBlock_ (this w) = Some Sample.picker) by (vm_compute; reflexivity).
  split; [exact H1|]. exact (setValue_block_frame w "#00ff00" _ H1).
Defined.


(** X3, at the open editor and a string that is no colour. *)
Lemma setValue_rejected_colour_witness :
  let w := Sample.opened None false in
  hueSlider_ (this w) <> None
  /\ hexToHsv "banana" = None
  /\ outcome (setValue "banana") w = Throw ColorError
  /\ colour_ (this (exec (setValue "banana") w)) = "banana".
Proof.
  intros w.
  assert (H1 : hueSlider_ (this w) <> None) by (vm_compute; discriminate).
  assert (H2 : hexToHsv "banana" = None) by (vm_compute; reflexivity).
  split; [exact H1|]. split; [exact H2|].
  destruct (setValue_rejected_colour w "banana" H1 H2) as (H3 & H4 & _).
  split; [exact H3 | exact H4].
Defined.


(** X7, at the short form of white. *)
Lemma getText_other_length_witness :
  let w := Sample.world (Sample.field "#fff" None) false in
  String.length (colour_ (this w)) <> 7%nat
  /\ outcome getText w = Normal "#fff".
Proof.
  intros w.
  assert (H1 : String.length (colour_ (this w)) <> 7%nat) by (vm_compute; lia).
  split; [exact H1|]. exact (getText_other_length w H1).
Defined.

(** X8, at white. *)
Lemma getText_stable_witness :
  let w := Sample.world (Sample.field "#ffffff" None) false in
  outcome getText w = Normal "#fff"
  /\ outcome getText (holding "#fff" w) = Normal "#fff".
Proof.
  intros w.
  assert (H1 : outcome getText w = Normal "#fff") by (vm_compute; reflexivity).
  split; [exact H1|]. exact (proj2 (getText_stable w "#fff" H1)).
Defined.

(** X9, at the red field without source block whose validator rejects
    every colour. *)
Lemma slider_change_unguarded_witness :
  let w := Sample.orphan (Some Sample.reject) in
  sourceBlock_ (this w) = None
  /\ hexToHsv (colour_ (this w)) = Some (Hsv (0 # 255) (255 # 255) 255)
  /\ candidate Hue 120 (Hsv (0 # 255) (255 # 255) 255) = Some "#00ff00"
  /\ outcome getValue (exec (sliderChange Hue 120) w) = Normal "#00ff00".
Proof.
  intros w.
  assert (H1 : sourceBlock_ (this w) = None) by (vm_compute; reflexivity).
  assert (H2 : hexToHsv (colour_ (this w)) = Some (Hsv (0 # 255) (255 # 255) 255))
    by (vm_compute; reflexivity).
  assert (H3 : candidate Hue 120 (Hsv (0 # 255) (255 # 255) 255) = Some "#00ff00")
    by (vm_compute; reflexivity).
  split; [exact H1|]. split; [exact H2|]. split; [exact H3|].
  exact (proj2 (slider_change_unguarded w Hue 120 _ _ H1 H2 H3)).
Defined.

(** X10, at a field that holds a string that is no colour. *)
Lemma slider_change_rejected_witness :
  let w := Sample.world (Sample.field "banana" None) false in
  hexToHsv (colour_ (this w)) = None
  /\ sliderChange Brightness 100 w = (Throw ColorError, w).
Proof.
  intros w.
  assert (H1 : hexToHsv (colour_ (this w)) = None) by (vm_compute; reflexivity).
  split; [exact H1|].
  exact (slider_change_rejected w Brightness 100 (or_introl H1)).
Defined.

(** X13, at a field that holds a string that is no colour. *)
Lemma showEditor_rejected_colour_witness :
  let w := Sample.world (Sample.field "banana" None) true in
  hexToHsv (colour_ (this w)) = None
  /\ outcome showEditor_ w = Throw ColorError
  /\ registry (exec showEditor_ w) = registry w.
Proof.
  intros w.
  assert (H1 : hexToHsv (colour_ (this w)) = None) by (vm_compute; reflexivity).
  split; [exact H1|].
  destruct (showEditor_rejected_colour w H1) as (H2 & H3 & _).
  split; [exact H2 | exact H3].
Defined.

(** X14, at the red field without source block. *)
Lemma showEditor_without_parent_witness :
  let w := Sample.world (Sample.red None) false in
  hexToHsv (colour_ (this w)) <> None
  /\ sourceBlock_ (this w) = None
  /\ outcome showEditor_ w = Throw TypeError
  /\ dd_visible (dropDownDiv (exec showEditor_ w)) = false.
Proof.
  intros w.
  assert (H1 : hexToHsv (colour_ (this w)) <> None) by (vm_compute; discriminate).
  assert (H2 : sourceBlock_ (this w) = None) by reflexivity.
  split; [exact H1|]. split; [exact H2|].
  destruct (showEditor_without_parent w H1 I) as (H3 & _ & _ & _ & H4).
  split; [exact H3 | exact H4].
Defined.


(** X17, at the red field installed on [picker], with an eyedropper
    hook. *)
Lemma showEditor_panel_witness :
  let w := Sample.attached None true in
  outcome showEditor_ w = Normal tt
  /\ exists block parent,
       sourceBlock_ (this w) = Some block
       /\ block_parentBlock_ block = Some parent
       /\ dropDownDiv (exec showEditor_ w) =
            {| dd_content := panelContent w;
               dd_colour := Some ("#ffffff", "#dddddd");
               dd_category := block_category_ parent;
               dd_visible := true |}.
Proof.
  intros w.
  assert (H1 : outcome showEditor_ w = Normal tt) by (vm_compute; reflexivity).
  split; [exact H1|]. exact (showEditor_panel w H1).
Defined.

(** X15, at the red field without source block: the listeners are live
    although [showEditor_] throws. *)
Lemma showEditor_listeners_live_witness :
  let w := Sample.world (Sample.red None) true in
  let w' := exec showEditor_ w in
  hexToHsv (colour_ (this w)) <> None
  /\ live w' (hueChangeEventKey_ w') (SliderChange Hue)
  /\ live w' (eyedropperEventData_ w') EyedropperMouseDown.
Proof.
  intros w w'.
  assert (H1 : hexToHsv (colour_ (this w)) <> None) by (vm_compute; discriminate).
  split; [exact H1|].
  destruct (showEditor_listeners_live w H1) as (H2 & _ & _ & H3).
  split; [exact H2 | exact (H3 eq_refl)].
Defined.

